(** * Aurora-Odyssey: the OMNI geomagnetic storm visualizer

    A shallow embedding of [omniweb_visualizer.py] and the properties of
    its parser ([read_data]), its start-up branch, its filter and
    presentation callback ([update_graph]) and its click echo
    ([display_click_data]).

    Conventions of the embedding.
    - A pandas DataFrame is the list of its rows, in index order.  The 19
      named columns of a row are fields of the record [RawRow]; the derived
      column is the field [DateTime] of [Row].  [pd.DataFrame()] and any
      frame with no rows are both the empty list.
    - A numeric cell is an [int64] ([VInt]) or a [float64] ([VFloat],
      IEEE-754 binary64 as [spec_float], NaN for a missing field).  In a
      frame that [pd.read_fwf] returns all the cells of a column are of
      one of the two ([FixedWidth.infer_dtypes]).
    - [print] appends to the list of output lines, exceptions are the left
      summand of the result: the monad [IO].
    - [pd.read_fwf] has two stages, opening the file ([open_text]) and
      decoding its lines into labelled numeric rows ([fwf_decode]).  The
      program is stated over any two such stages, the variables of the
      sections below; [FixedWidth.decode] is the decoding stage as pandas
      has it (columns inferred from the first lines, blank lines dropped,
      missing fields NaN, one dtype for each column), over the reading of
      one field as a number ([number_of_token]), which is external.  So
      is Python's [str] of a float ([float_str]). *)

From Stdlib Require Import ZArith List String Ascii Bool Lia.
From Stdlib Require Import DecimalString DecimalZ DecimalPos SpecFloat.
From Stdlib Require Import Sorted.
Import ListNotations.

Local Open Scope string_scope.
Local Open Scope Z_scope.

(* ================================================================= *)
(** ** Python text: [str] of an int, digit strings, [split], [zfill] *)

Module PyText.

(** [str(n)] of a Python or numpy integer. *)
Definition str_int (n : Z) : string := NilZero.string_of_int (Z.to_int n).

(** The value of a non-empty string of ASCII digits, [None] for any other
    string. *)
Definition parse_digits (s : string) : option Z :=
  match s with
  | EmptyString => None
  | _ => option_map Z.of_uint (NilEmpty.uint_of_string s)
  end.

(** [s.split(sep)] for a separator of one character. *)
Fixpoint split_on (sep : ascii) (s : string) : list string :=
  match s with
  | EmptyString => [EmptyString]
  | String c s' =>
      if Ascii.eqb c sep then EmptyString :: split_on sep s'
      else match split_on sep s' with
           | h :: t => String c h :: t
           | [] => [String c EmptyString]
           end
  end.

Definition split_dash : string -> list string := split_on "-"%char.

(** ['-'.join(parts)]. *)
Definition join_dash (parts : list string) : string := String.concat "-" parts.

(** [s.zfill(width)]: pad with zeros on the left. *)
Fixpoint zeros (n : nat) : string :=
  match n with
  | O => EmptyString
  | S k => String "0"%char (zeros k)
  end.

Definition zfill (width : nat) (s : string) : string :=
  zeros (width - String.length s) ++ s.

(** Every character of [s] satisfies [p]. *)
Fixpoint string_forallb (p : ascii -> bool) (s : string) : bool :=
  match s with
  | EmptyString => true
  | String c s' => p c && string_forallb p s'
  end.

Definition is_digit (c : ascii) : bool :=
  (48 <=? nat_of_ascii c)%nat && (nat_of_ascii c <=? 57)%nat.

End PyText.
Export PyText.

(* ================================================================= *)
(** ** Numeric cells and their comparisons *)

Inductive num : Type :=
| VInt (n : Z)              (* int64 cell, Python int scalar *)
| VFloat (f : spec_float).  (* float64 cell, Python float scalar *)

Definition NaN : spec_float := S754_nan.
Definition pos_infinity : spec_float := S754_infinity false.

(** Conversion of an integer to binary64, round to nearest even. *)
Definition float64_of_int (n : Z) : spec_float := binary_normalize 53 1024 n 0 false.

Definition to_float64 (v : num) : spec_float :=
  match v with
  | VInt n => float64_of_int n
  | VFloat f => f
  end.

(** Elementwise [==]: integers compare as integers, any other pair is
    compared in binary64 (NaN equals nothing). *)
Definition num_eq (a b : num) : bool :=
  match a, b with
  | VInt m, VInt n => m =? n
  | _, _ => SFeqb (to_float64 a) (to_float64 b)
  end.

(** Elementwise [<=] (false as soon as one side is NaN). *)
Definition num_le (a b : num) : bool :=
  match a, b with
  | VInt m, VInt n => m <=? n
  | _, _ => SFleb (to_float64 a) (to_float64 b)
  end.

Definition is_nan (v : num) : bool :=
  match v with
  | VFloat S754_nan => true
  | _ => false
  end.

(* ================================================================= *)
(** ** Calendar dates and [datetime64[ns]] timestamps *)

Record datetime : Type := mkDatetime
  { year : Z; month : Z; day : Z; hour : Z; minute : Z }.

(** A cell of a datetime column: [None] is [NaT]. *)
Definition Timestamp : Type := option datetime.
Definition NaT : Timestamp := None.

Definition is_leap (y : Z) : bool :=
  ((y mod 4 =? 0) && negb (y mod 100 =? 0)) || (y mod 400 =? 0).

Definition days_in_year (y : Z) : Z := if is_leap y then 366 else 365.

Definition month_lengths (y : Z) : list Z :=
  [31; if is_leap y then 29 else 28; 31; 30; 31; 30; 31; 31; 30; 31; 30; 31].

(** Walk the months: day [d] counted from the first day of month [m]. *)
Fixpoint month_day (lens : list Z) (m d : Z) : Z * Z :=
  match lens with
  | [] => (m, d)
  | len :: rest => if d <=? len then (m, d) else month_day rest (m + 1) (d - len)
  end.

(** [date.fromordinal(julian - 1 + date(y, 1, 1).toordinal())] for
    [1 <= julian <= 366]: the [julian]-th day counted from 1 January of
    [y].  In a year of 365 days the 366th such day is 1 January of
    [y + 1]. *)
Definition date_of_julian (y julian : Z) : Z * Z * Z :=
  if julian <=? days_in_year y then
    let '(m, d) := month_day (month_lengths y) 1 julian in (y, m, d)
  else
    let '(m, d) := month_day (month_lengths (y + 1)) 1 (julian - days_in_year y) in
    (y + 1, m, d).

(** Minutes-resolution order key of a timestamp. *)
Definition minute_key (t : datetime) : Z :=
  ((((year t * 13 + month t) * 32 + day t) * 24 + hour t) * 60) + minute t.

(** [pd.Timestamp.min] is 1677-09-21 00:12:43.145224193 and
    [pd.Timestamp.max] is 2262-04-11 23:47:16.854775807: a whole-minute
    timestamp is representable in [datetime64[ns]] from 00:13 of the first
    day to 23:47 of the last. *)
Definition Timestamp_min : datetime := mkDatetime 1677 9 21 0 13.
Definition Timestamp_max : datetime := mkDatetime 2262 4 11 23 47.

Definition in_ns_bounds (t : datetime) : bool :=
  (minute_key Timestamp_min <=? minute_key t) &&
  (minute_key t <=? minute_key Timestamp_max).

(* ================================================================= *)
(** ** pandas: [to_datetime(format='%Y-%j-%H-%M', errors='coerce')] and
       [.dt.strftime('%Y-%m-%d %H:%M')] *)

Module Pandas.

(** One directive of the format: a run of [lo_len..hi_len] digits whose
    value lies in [lo..hi].  The directives used are
    - [%Y]: [\d\d\d\d];
    - [%j]: [36[0-6]|3[0-5]\d|[1-2]\d\d|0[1-9]\d|00[1-9]|[1-9]\d|0[1-9]|[1-9]],
      one to three digits of value 1..366;
    - [%H]: [2[0-3]|[0-1]\d|\d], one or two digits of value 0..23;
    - [%M]: [[0-5]\d|\d], one or two digits of value 0..59. *)
Definition directive (lo_len hi_len : nat) (lo hi : Z) (s : string) : option Z :=
  match parse_digits s with
  | Some n =>
      if (lo_len <=? String.length s)%nat && (String.length s <=? hi_len)%nat
         && (lo <=? n) && (n <=? hi)
      then Some n else None
  | None => None
  end.

Definition directive_Y := directive 4 4 0 9999.
Definition directive_j := directive 1 3 1 366.
Definition directive_H := directive 1 2 0 23.
Definition directive_M := directive 1 2 0 59.

(** Exact match of the whole string against [%Y-%j-%H-%M].  The
    directives match digits only and are separated by literal dashes, so
    the string matches exactly when it splits at its dashes into four
    pieces, one per directive. *)
Definition match_format (s : string) : option (Z * Z * Z * Z) :=
  match split_dash s with
  | [sy; sj; sh; sm] =>
      match directive_Y sy, directive_j sj, directive_H sh, directive_M sm with
      | Some y, Some j, Some h, Some m => Some (y, j, h, m)
      | _, _, _, _ => None
      end
  | _ => None
  end.

(** One element of [to_datetime(..., format='%Y-%j-%H-%M', errors='coerce')]:
    a string that does not match, or whose date is outside the nanosecond
    range, becomes [NaT]. *)
Definition to_datetime (s : string) : Timestamp :=
  match match_format s with
  | Some (y, j, h, m) =>
      let '(y', mo, d) := date_of_julian y j in
      let t := mkDatetime y' mo d h m in
      if in_ns_bounds t then Some t else NaT
  | None => NaT
  end.

(** [Timestamp.strftime('%Y-%m-%d %H:%M')]. *)
Definition format_datetime (t : datetime) : string :=
  zfill 4 (str_int (year t)) ++ "-" ++ zfill 2 (str_int (month t)) ++ "-" ++
  zfill 2 (str_int (day t)) ++ " " ++ zfill 2 (str_int (hour t)) ++ ":" ++
  zfill 2 (str_int (minute t)).

(** One element of [Series.dt.strftime('%Y-%m-%d %H:%M')]: [NaT] becomes
    the missing value [NaN] (here [None]), not a string. *)
Definition dt_strftime (t : Timestamp) : option string :=
  match t with
  | Some d => Some (format_datetime d)
  | None => None
  end.

End Pandas.

(* ================================================================= *)
(** ** The table: column names and rows *)

Definition column_names : list string :=
  [ "Year"; "Day"; "Hour"; "Minute";
    "Field_Magnitude_Avg"; "BX"; "BY"; "BZ";
    "Speed"; "Proton_Density"; "Proton_Temperature";
    "Electric_Field"; "Plasma_Beta"; "Alfven_Mach_Number";
    "AE_Index"; "AL_Index"; "AU_Index";
    "SYM_D"; "SYM_H" ].

(** A row as [read_fwf(..., names=column_names)] labels it. *)
Record RawRow : Type := mkRawRow
  { Year : num; Day : num; Hour : num; Minute : num;
    Field_Magnitude_Avg : num; BX : num; BY : num; BZ : num;
    Speed : num; Proton_Density : num; Proton_Temperature : num;
    Electric_Field : num; Plasma_Beta : num; Alfven_Mach_Number : num;
    AE_Index : num; AL_Index : num; AU_Index : num;
    SYM_D : num; SYM_H : num }.



(** A row of the dataset: the raw columns and the derived [DateTime]. *)
Record Row : Type := mkRow
  { raw :> RawRow; DateTime : Timestamp }.

Definition DataFrame : Type := list Row.

(** [pd.DataFrame()]. *)
Definition DataFrame_empty : DataFrame := [].

(** [df.empty]. *)
Definition empty (df : DataFrame) : bool :=
  match df with
  | [] => true
  | _ :: _ => false
  end.

(* ================================================================= *)
(** ** Exceptions and printed output *)

Record Exception : Type := mkException
  { exc_class : string; exc_message : string }.

Inductive output : Type :=
| Line (s : string)              (* print(s) *)
| Head (rows : list RawRow).     (* print(data.head()) *)

(** A computation that prints and may raise. *)
Definition IO (A : Type) : Type := list output -> (Exception + A) * list output.

Definition ret {A} (a : A) : IO A := fun out => (inr a, out).

Definition bind {A B} (c : IO A) (k : A -> IO B) : IO B :=
  fun out =>
    match c out with
    | (inr a, out') => k a out'
    | (inl e, out') => (inl e, out')
    end.

Definition print (o : output) : IO unit := fun out => (inr tt, (out ++ [o])%list).

(** A call that either raises or returns. *)
Definition call {A} (r : Exception + A) : IO A := fun out => (r, out).

(** [try: body  except Exception as e: handler(e)]. *)
Definition try_except {A} (body : IO A) (handler : Exception -> IO A) : IO A :=
  fun out =>
    match body out with
    | (inr a, out') => (inr a, out')
    | (inl e, out') => handler e out'
    end.

Notation "x <- c ;; k" := (bind c (fun x => k))
  (at level 61, c at next level, right associativity).
Notation "c ;;; k" := (bind c (fun _ => k))
  (at level 61, right associativity).

(** What [pd.to_datetime] raises when it is given a frame with the columns
    Year, Day, Hour and Minute: to assemble timestamps from the columns of
    a frame it needs a year, a month and a day. *)
Definition assemble_error : Exception :=
  mkException "ValueError"
    "to assemble mappings requires at least that [year, month, day] be specified: [month] is missing".

(* ================================================================= *)
(** ** The program *)

Section Program.

(** [str(x)] of a float64, as [astype(str)] and f-strings render it. *)
Variable float_str : spec_float -> string.

(** Opening and reading a text file: raises ([OSError] and the like), or
    returns the lines of the file. *)
Variable open_text : string -> Exception + list string.

(** The decoding stage of [pd.read_fwf(..., names=names)]: column
    boundaries, tokens, numbers.  It raises, or returns the decoded rows
    labelled with [names].  [FixedWidth.decode], further down, is this
    stage as pandas has it. *)
Variable fwf_decode : list string -> list string -> Exception + list RawRow.

(** [pd.read_fwf(lst_file, names=names)]. *)
Definition read_fwf (lst_file : string) (names : list string)
  : Exception + list RawRow :=
  match open_text lst_file with
  | inr lines => fwf_decode lines names
  | inl e => inl e
  end.

(** One cell of [astype(str)]. *)
Definition astype_str (v : num) : string :=
  match v with
  | VInt n => str_int n
  | VFloat f => float_str f
  end.

(** One row of
    [data[['Year', 'Day', 'Hour', 'Minute']].astype(str).agg('-'.join, axis=1)]. *)
Definition composite (r : RawRow) : string :=
  join_dash [astype_str (Year r); astype_str (Day r);
             astype_str (Hour r); astype_str (Minute r)].

(** The value [data['DateTime'] = pd.to_datetime(...)] stores in a row. *)
Definition assign_DateTime (r : RawRow) : Row :=
  mkRow r (Pandas.to_datetime (composite r)).

(** The statement [data['DateTime'] = pd.to_datetime(...)] on the whole
    frame.  For a frame of no rows, [.agg('-'.join, axis=1)] returns the
    empty frame of the four columns instead of a Series of texts, and
    [pd.to_datetime] of a frame looks for the columns year, month and day:
    it raises.  For a frame with rows, every row gets its timestamp. *)
Definition derive_DateTime (data : list RawRow) : Exception + DataFrame :=
  match data with
  | [] => inl assemble_error
  | _ :: _ => inr (map assign_DateTime data)
  end.

Definition read_data (lst_file : string) : IO DataFrame :=
  try_except
    (data <- call (read_fwf lst_file column_names) ;;
     print (Line "Data read successfully. First few rows:") ;;;
     print (Head (firstn 5 data)) ;;;
     data <- call (derive_DateTime data) ;;
     print (Line ("Number of records: " ++ str_int (Z.of_nat (List.length data)))) ;;;
     ret data)
    (fun e =>
       print (Line ("Error reading the LST file: " ++ exc_message e)) ;;;
       ret DataFrame_empty).

Definition lst_file_path : string := "omni_web_data1.lst".

(** What the module-level code does after loading: it stops after a
    message, or goes on to build the Dash application over
    [storm_data]. *)
Inductive startup : Type :=
| NoDashboard
| BuildDashboard (storm_data : DataFrame).

Definition script : IO startup :=
  storm_data <- read_data lst_file_path ;;
  if empty storm_data then
    print (Line "The DataFrame is empty. Please check the LST file format.") ;;;
    ret NoDashboard
  else
    ret (BuildDashboard storm_data).

(** *** [update_graph] *)

(** The boolean mask
    [(storm_data['Year'] == selected_year) &
     (storm_data['Field_Magnitude_Avg'] <= selected_magnitude)], one row. *)
Definition mask (selected_year selected_magnitude : num) (r : Row) : bool :=
  num_eq (Year r) selected_year && num_le (Field_Magnitude_Avg r) selected_magnitude.

Definition filtered_data (storm_data : DataFrame)
           (selected_year selected_magnitude : num) : DataFrame :=
  filter (mask selected_year selected_magnitude) storm_data.

(** The [go.Scatter3d] trace: the five data sequences; mode, marker size,
    colour scale and hover mode are constants. *)
Record Scatter3d : Type := mkScatter3d
  { x : list num; y : list num; z : list num;
    marker_color : list num;
    text : list (option string) }.

Definition scatter3d (records : DataFrame) : Scatter3d :=
  {| x := map (fun r : Row => BX r) records;
     y := map (fun r : Row => BY r) records;
     z := map (fun r : Row => BZ r) records;
     marker_color := map (fun r : Row => Field_Magnitude_Avg r) records;
     text := map (fun r : Row => Pandas.dt_strftime (DateTime r)) records |}.

Record Figure : Type := mkFigure
  { data : list Scatter3d;
    layout_title : string;
    xaxis_title : string; yaxis_title : string; zaxis_title : string }.

Definition update_graph (storm_data : DataFrame)
           (selected_year selected_magnitude : num) : Figure :=
  let filtered := filtered_data storm_data selected_year selected_magnitude in
  {| data := [scatter3d filtered];
     layout_title := "3D Geomagnetic Storm Data";
     xaxis_title := "BX (nT)"; yaxis_title := "BY (nT)"; zaxis_title := "BZ (nT)" |}.

(** *** [display_click_data] *)

(** A JSON scalar of the click event. *)
Inductive pyval : Type :=
| PyNone
| PyInt (n : Z)
| PyFloat (f : spec_float)
| PyStr (s : string).

(** [format(v, '')], what an f-string field prints. *)
Definition py_str (v : pyval) : string :=
  match v with
  | PyNone => "None"
  | PyInt n => str_int n
  | PyFloat f => float_str f
  | PyStr s => s
  end.

(** One entry of [clickData['points']]. *)
Record point : Type := mkPoint
  { point_text : pyval; point_x : pyval; point_y : pyval; point_z : pyval }.

(** The [clickData] property when it has its keys: [None] before any
    click, else a dict with the key ['points'], each point with the keys
    ['text'], ['x'], ['y'] and ['z'].  The events that lack a key are those
    of [display_click_data_json] below. *)
Record click : Type := mkClick { points : list point }.

Definition display_click_data (clickdata : option click) : Exception + string :=
  match clickdata with
  | Some cd =>
      match points cd with
      | pt :: _ =>
          inr ("Clicked Point: DateTime: " ++ py_str (point_text pt) ++
               ", BX: " ++ py_str (point_x pt) ++
               ", BY: " ++ py_str (point_y pt) ++
               ", BZ: " ++ py_str (point_z pt))
      | [] => inl (mkException "IndexError" "list index out of range")
      end
  | None => inr "Click on a point to see details."
  end.

(** *** [display_click_data] on any click event

    The same callback over the dicts themselves: [clickData] is [None] or
    a dict, which may be empty or lack the key ['points'] (only that key
    is read; its value is a list of points), and a point is a dict from
    its keys to JSON scalars, which may lack any of ['text'], ['x'],
    ['y'], ['z']. *)
Definition pydict (V : Type) : Type := list (string * V).

Fixpoint dict_get {V : Type} (key : string) (d : pydict V) : option V :=
  match d with
  | [] => None
  | (k, v) :: rest => if String.eqb k key then Some v else dict_get key rest
  end.

(** [d[key]]. *)
Definition getitem {V : Type} (d : pydict V) (key : string) : Exception + V :=
  match dict_get key d with
  | Some v => inr v
  | None => inl (mkException "KeyError" ("'" ++ key ++ "'"))
  end.

Definition display_click_data_json
    (clickdata : option (pydict (list (pydict pyval)))) : Exception + string :=
  match clickdata with
  | None => inr "Click on a point to see details."
  | Some [] => inr "Click on a point to see details."
  | Some cd =>
      match getitem cd "points" with
      | inl e => inl e
      | inr [] => inl (mkException "IndexError" "list index out of range")
      | inr (pt :: _) =>
          match getitem pt "text" with
          | inl e => inl e
          | inr label =>
              match getitem pt "x" with
              | inl e => inl e
              | inr px =>
                  match getitem pt "y" with
                  | inl e => inl e
                  | inr py =>
                      match getitem pt "z" with
                      | inl e => inl e
                      | inr pz =>
                          inr ("Clicked Point: DateTime: " ++ py_str label ++
                               ", BX: " ++ py_str px ++
                               ", BY: " ++ py_str py ++
                               ", BZ: " ++ py_str pz)
                      end
                  end
              end
          end
      end
  end.

(** The dicts of a click event that has its keys. *)
Definition point_json (pt : point) : pydict pyval :=
  [("text", point_text pt); ("x", point_x pt); ("y", point_y pt); ("z", point_z pt)].

Definition click_json (cd : click) : pydict (list (pydict pyval)) :=
  [("points", map point_json (points cd))].

End Program.

(* ================================================================= *)
(** ** The layout: Series reductions, [int], [range], the two selectors *)

(** Equality of the hash table behind [Series.unique()]: [==], and NaN
    equal to NaN. *)
Definition num_same (a b : num) : bool :=
  num_eq a b || (is_nan a && is_nan b).

(** [Series.unique()]: the distinct values in order of first appearance;
    [seen] holds the values already met. *)
Fixpoint unique_from (seen : list num) (l : list num) : list num :=
  match l with
  | [] => []
  | v :: rest =>
      if existsb (num_same v) seen then unique_from seen rest
      else v :: unique_from (v :: seen) rest
  end.

Definition unique (l : list num) : list num := unique_from [] l.

(** One step of [Series.min()] and of [Series.max()]: missing values are
    skipped, and the value met so far is kept only when it is strictly
    better, so that of two equal values (0.0 and -0.0) the later one is
    the result. *)
Definition num_min2 (a b : num) : num :=
  if is_nan a then b else if is_nan b then a
  else if num_le b a then b else a.

Definition num_max2 (a b : num) : num :=
  if is_nan a then b else if is_nan b then a
  else if num_le a b then b else a.

(** [Series.min()] and [Series.max()] of a column that has at least one
    row: NaN when every value is missing. *)
Definition series_min (l : list num) : num := fold_left num_min2 l (VFloat NaN).
Definition series_max (l : list num) : num := fold_left num_max2 l (VFloat NaN).

(** [int(v)]: an integer is itself, a float is truncated towards zero;
    NaN and the infinities raise. *)
Definition py_int (v : num) : Exception + Z :=
  match v with
  | VInt n => inr n
  | VFloat S754_nan =>
      inl (mkException "ValueError" "cannot convert float NaN to integer")
  | VFloat (S754_infinity _) =>
      inl (mkException "OverflowError" "cannot convert float infinity to integer")
  | VFloat (S754_zero _) => inr 0
  | VFloat (S754_finite sign m e) =>
      let magnitude := if 0 <=? e then Zpos m * 2 ^ e else Zpos m / 2 ^ (- e) in
      inr (if sign then - magnitude else magnitude)
  end.

(** [list(range(start, stop, step))] for a positive step. *)
Definition py_range (start stop step : Z) : list Z :=
  let n := if start <? stop then (stop - start - 1) / step + 1 else 0 in
  map (fun i => start + step * Z.of_nat i) (seq 0 (Z.to_nat n)).

(** An entry [{'label': ..., 'value': ...}] of the dropdown. *)
Record DropdownOption : Type := mkOption
  { option_label : string; option_value : num }.

(** [dcc.Dropdown(id='year-dropdown', ...)]. *)
Record Dropdown : Type := mkDropdown
  { options : list DropdownOption; dropdown_value : num }.

(** [dcc.Slider(id='magnitude-slider', ...)]; the step is the constant 0.1. *)
Record Slider : Type := mkSlider
  { slider_min : num; slider_max : num; slider_value : num;
    marks : list (Z * string) }.

(** [app.layout]: the title, the two selectors; the graph and the text
    area are empty placeholders. *)
Record Layout : Type := mkLayout
  { heading : string; year_dropdown : Dropdown; magnitude_slider : Slider }.

Section Layout.

(** [str(x)] of a float64. *)
Variable float_str : spec_float -> string.

(** [Series.mean()]: a floating-point sum and division, external. *)
Variable series_mean : list num -> num.

(** The body of the [else] branch up to [app.layout = ...], for a
    [storm_data] that is not empty.  The arguments are evaluated in the
    order of the source; only the two [int(...)] of the marks can raise. *)
Definition app_layout (storm_data : DataFrame) : Exception + Layout :=
  let years := map (fun r : Row => Year r) storm_data in
  let magnitudes := map (fun r : Row => Field_Magnitude_Avg r) storm_data in
  let dropdown :=
    {| options := map (fun year => mkOption (astype_str float_str year) year)
                      (unique years);
       dropdown_value := series_min years |} in
  match py_int (series_min magnitudes) with
  | inl e => inl e
  | inr lo =>
      match py_int (series_max magnitudes) with
      | inl e => inl e
      | inr hi =>
          inr {| heading := "3D Geomagnetic Storm Data for May 2024";
                 year_dropdown := dropdown;
                 magnitude_slider :=
                   {| slider_min := series_min magnitudes;
                      slider_max := series_max magnitudes;
                      slider_value := series_mean magnitudes;
                      marks := map (fun i => (i, str_int i)) (py_range lo (hi + 1) 5) |} |}
      end
  end.

End Layout.

Section ModuleBody.

Variable float_str : spec_float -> string.
Variable series_mean : list num -> num.
Variable open_text : string -> Exception + list string.
Variable fwf_decode : list string -> list string -> Exception + list RawRow.

(** The module-level code from [storm_data = read_data(...)] to the
    assignment of [app.layout]: [None] when no dashboard is built. *)
Definition module_body : IO (option Layout) :=
  started <- script float_str open_text fwf_decode ;;
  match started with
  | NoDashboard => ret None
  | BuildDashboard storm_data =>
      app <- call (app_layout float_str series_mean storm_data) ;;
      ret (Some app)
  end.

End ModuleBody.


(* ================================================================= *)
(** ** Notions the properties are stated with *)

(** [l] is a subsequence of [l']: some elements of [l'], in their order. *)
Inductive subsequence {A : Type} : list A -> list A -> Prop :=
| subsequence_nil : subsequence [] []
| subsequence_skip (a : A) (l l' : list A) :
    subsequence l l' -> subsequence l (a :: l')
| subsequence_keep (a : A) (l l' : list A) :
    subsequence l l' -> subsequence (a :: l) (a :: l').

(** A valid ISO ordinal date and time of day: day [j] exists in year [y]. *)
Definition valid_ordinal (y j h m : Z) : bool :=
  (1 <=? j) && (j <=? days_in_year y) &&
  (0 <=? h) && (h <=? 23) && (0 <=? m) && (m <=? 59).

(** What the format accepts: any day number up to 366, whatever the year. *)
Definition accepted_ordinal (j h m : Z) : bool :=
  (1 <=? j) && (j <=? 366) && (0 <=? h) && (h <=? 23) && (0 <=? m) && (m <=? 59).

(** The timestamp of day [j] counted from 1 January of [y]. *)
Definition timestamp_of (y j h m : Z) : datetime :=
  let '(y', mo, d) := date_of_julian y j in mkDatetime y' mo d h m.

(** [s] is the decimal text of [n] on exactly [width] digits. *)
Definition padded (width : nat) (n : Z) (s : string) : Prop :=
  String.length s = width /\ string_forallb is_digit s = true /\
  parse_digits s = Some n.

(** The number in its year of day [d] of month [mo]. *)
Definition day_of_year (y mo d : Z) : Z :=
  fold_right Z.add 0 (firstn (Z.to_nat (mo - 1)) (month_lengths y)) + d.

(** The number of days of month [mo] of year [y]. *)
Definition days_in_month (y mo : Z) : Z :=
  nth (Z.to_nat (mo - 1)) (month_lengths y) 0.

(** The order key of (year, day of year, hour, minute). *)
Definition ordinal_key (y j h m : Z) : Z := (((y * 367 + j) * 24 + h) * 60) + m.

(** A column of one dtype: all its cells are int64, or all are float64. *)
Definition is_int (v : num) : bool := match v with VInt _ => true | VFloat _ => false end.

Definition one_dtype (l : list num) : Prop :=
  (forall v, In v l -> is_int v = true) \/ (forall v, In v l -> is_int v = false).

(** A finite number: an integer, or a float that is not NaN or infinite. *)
Definition is_finite (v : num) : bool :=
  match v with
  | VInt _ => true
  | VFloat (S754_zero _) => true
  | VFloat (S754_finite _ _ _) => true
  | VFloat _ => false
  end.

(** The [n] integers from [lo] on. *)
Definition Z_range (lo : Z) (n : nat) : list Z :=
  map (fun i => lo + Z.of_nat i) (seq 0 n).


(** The values of [l] that match no earlier value of [l], in the order
    of [l]. *)
Definition first_appearances (l : list num) : list num :=
  map snd
      (filter (fun kv => negb (existsb (num_same (snd kv)) (firstn (fst kv) l)))
              (combine (seq 0 (List.length l)) l)).

(* ================================================================= *)
(** ** pandas: how [read_fwf] decodes the lines of a file

    With [colspecs='infer'] (the default) and [names] given, [read_fwf]
    - raises [EmptyDataError] for a file of no line;
    - infers the columns from the first 100 lines: a character position
      belongs to a column when one of these lines has a character there
      that is not a delimiter, and a column is a maximal run of such
      positions;
    - cuts every line of the file at these columns and strips each piece;
    - drops the lines all of whose pieces are blank;
    - labels the pieces with [names] from the left; when there are fewer
      columns than names the remaining names get missing values, when
      there are more the extra leading columns become the index;
    - reads the pieces as numbers (the empty piece is the missing value
      NaN) and gives each column one dtype: int64 when all its values are
      integers, float64 otherwise.
    No line of the file is a header.  Reading one piece as a number is
    external; columns of text that is not numeric are not modelled. *)

Module FixedWidth.

(** The delimiters: line feed, carriage return, tab, space. *)
Definition is_delimiter (c : ascii) : bool :=
  let n := nat_of_ascii c in
  (n =? 10)%nat || (n =? 13)%nat || (n =? 9)%nat || (n =? 32)%nat.

(** The white space of [str.strip()]. *)
Definition is_space (c : ascii) : bool :=
  let n := nat_of_ascii c in
  ((9 <=? n)%nat && (n <=? 13)%nat) || ((28 <=? n)%nat && (n <=? 32)%nat).

(** [s.strip(delimiter)]. *)
Fixpoint lstrip (s : string) : string :=
  match s with
  | String c s' => if is_delimiter c then lstrip s' else s
  | EmptyString => EmptyString
  end.

Fixpoint rstrip (s : string) : string :=
  match s with
  | EmptyString => EmptyString
  | String c s' =>
      match rstrip s' with
      | EmptyString => if is_delimiter c then EmptyString else String c EmptyString
      | t => String c t
      end
  end.

Definition strip (s : string) : string := lstrip (rstrip s).

(** Position [i] holds, in one of the rows, a character that is not a
    delimiter. *)
Definition occupied (rows : list string) (i : nat) : bool :=
  existsb (fun row => match String.get i row with
                      | Some c => negb (is_delimiter c)
                      | None => false
                      end) rows.

Definition max_len (rows : list string) : nat :=
  fold_right (fun row n => Nat.max (String.length row) n) 0%nat rows.

(** The mask of the occupied positions, one position longer than the
    longest row. *)
Definition column_mask (rows : list string) : list bool :=
  map (occupied rows) (seq 0 (max_len rows + 1)).

(** The positions where the mask differs from the mask one position to
    the left ([previous]; nothing is to the left of position 0). *)
Fixpoint edges (previous : bool) (i : nat) (mask : list bool) : list nat :=
  match mask with
  | [] => []
  | b :: rest =>
      if xorb b previous then i :: edges b (S i) rest else edges b (S i) rest
  end.

(** [zip(edges[::2], edges[1::2])]. *)
Fixpoint edge_pairs (l : list nat) : list (nat * nat) :=
  match l with
  | a :: b :: rest => (a, b) :: edge_pairs rest
  | _ => []
  end.

(** [detect_colspecs]: the columns as half-open intervals of positions. *)
Definition detect_colspecs (rows : list string) : list (nat * nat) :=
  edge_pairs (edges false 0 (column_mask rows)).

Definition infer_nrows : nat := 100.

(** One line cut at the columns:
    [[line[a:b].strip(delimiter) for (a, b) in colspecs]]. *)
Definition fields (colspecs : list (nat * nat)) (line : string) : list string :=
  map (fun span : nat * nat =>
         strip (substring (fst span) (snd span - fst span) line)) colspecs.

(** A line is kept when one of its pieces is not blank. *)
Definition is_blank (piece : string) : bool := string_forallb is_space piece.

Definition has_data (row : list string) : bool :=
  existsb (fun piece => negb (is_blank piece)) row.

(** The pieces of the lines that are kept. *)
Definition table (lines : list string) : list (list string) :=
  filter has_data (map (fields (detect_colspecs (firstn infer_nrows lines))) lines).

(** The dtype of a column and the conversion of its values. *)
Definition all_int (column : RawRow -> num) (rows : list RawRow) : bool :=
  forallb (fun r => is_int (column r)) rows.

Definition astype (int64 : bool) (v : num) : num :=
  if int64 then v else VFloat (to_float64 v).

(** One row of the frame [rows] after each column got its dtype. *)
Definition cast_row (rows : list RawRow) (r : RawRow) : RawRow :=
  let cast (column : RawRow -> num) := astype (all_int column rows) (column r) in
  mkRawRow
    (cast Year) (cast Day) (cast Hour) (cast Minute)
    (cast Field_Magnitude_Avg) (cast BX) (cast BY) (cast BZ) (cast Speed)
    (cast Proton_Density) (cast Proton_Temperature) (cast Electric_Field)
    (cast Plasma_Beta) (cast Alfven_Mach_Number) (cast AE_Index)
    (cast AL_Index) (cast AU_Index) (cast SYM_D) (cast SYM_H).

Definition infer_dtypes (rows : list RawRow) : list RawRow :=
  map (cast_row rows) rows.

Section Decode.

(** The number a piece that is not empty reads as: an integer, or a
    float (NaN for the texts that stand for a missing value). *)
Variable number_of_token : string -> num.

Definition value (piece : string) : num :=
  if String.eqb piece "" then VFloat NaN else number_of_token piece.

(** The pieces of one line under the names: the pieces beyond the number
    of names, counted from the left, are the index. *)
Definition row_of_fields (names : list string) (row : list string) : RawRow :=
  let data := skipn (List.length row - List.length names) row in
  let v (k : nat) := value (nth k data "") in
  mkRawRow
    (v 0%nat) (v 1%nat) (v 2%nat) (v 3%nat) (v 4%nat) (v 5%nat) (v 6%nat)
    (v 7%nat) (v 8%nat) (v 9%nat) (v 10%nat) (v 11%nat) (v 12%nat)
    (v 13%nat) (v 14%nat) (v 15%nat) (v 16%nat) (v 17%nat) (v 18%nat).

Definition decode (lines : list string) (names : list string)
  : Exception + list RawRow :=
  match lines with
  | [] => inl (mkException "EmptyDataError" "No rows from which to infer column width")
  | _ :: _ => inr (infer_dtypes (map (row_of_fields names) (table lines)))
  end.

End Decode.


End FixedWidth.





(* ================================================================= *)
(** ** Sample data, to run the model on *)

Module Sample.

Definition zero : num := VFloat (S754_zero false).

(** A row with the given time fields, field magnitude and field vector. *)
Definition storm_row (y d h mi mag bx bY bz : num) : RawRow :=
  mkRawRow y d h mi mag bx bY bz zero zero zero zero zero zero zero zero zero zero zero.

(** The binary64 numbers nearest to 3.2, 1.1, 4.0 and 12.5. *)
Definition f3_2 : spec_float := S754_finite false 7205759403792794 (-51).
Definition f1_1 : spec_float := S754_finite false 4953959590107546 (-52).
Definition f4_0 : spec_float := S754_finite false 4503599627370496 (-50).
Definition f12_5 : spec_float := S754_finite false 7036874417766400 (-49).

(** The integer that [m * 2 ^ e] is, if it is one. *)
Definition integer_value (m : positive) (e : Z) : option Z :=
  if 0 <=? e then Some (Zpos m * 2 ^ e)
  else if Zpos m mod 2 ^ (- e) =? 0 then Some (Zpos m / 2 ^ (- e))
  else None.

(** Python's text of a float: the special values, the floats that are
    integers below 10 ^ 16 (digits and [.0]), and the three fractions
    above.  The shortest decimal text of the other floats is not computed
    here: they are shown as mantissa and binary exponent. *)
Definition float_str (f : spec_float) : string :=
  match f with
  | S754_nan => "nan"
  | S754_infinity false => "inf"
  | S754_infinity true => "-inf"
  | S754_zero false => "0.0"
  | S754_zero true => "-0.0"
  | S754_finite sign m e =>
      let other := str_int (Zpos m) ++ "*2**" ++ str_int e in
      let body :=
        if SFeqb (S754_finite false m e) f3_2 then "3.2"
        else if SFeqb (S754_finite false m e) f1_1 then "1.1"
        else if SFeqb (S754_finite false m e) f12_5 then "12.5"
        else match integer_value m e with
             | Some n => if n <? 10 ^ 16 then str_int n ++ ".0" else other
             | None => other
             end in
      if sign then "-" ++ body else body
  end.

(** The two lines of the sample file. *)
Definition line_1 : string :=
  "2024 131 0 0 12 -3 1 4 450 5 100000 1 1 9 300 -200 100 -5 -40".
Definition line_2 : string :=
  "2024 131 0 1 13 -4 2 5 451 5 100000 1 1 9 300 -200 100 -5 -41".

(** A file system with one readable file of two lines. *)
Definition open_text (path : string) : Exception + list string :=
  if String.eqb path "omni_web_data1.lst"
  then inr ["2024 131 0 0 12 -3 1 4 450 5 100000 1 1 9 300 -200 100 -5 -40";
            "2024 131 0 1 13 -4 2 5 451 5 100000 1 1 9 300 -200 100 -5 -41"]
  else inl (mkException "FileNotFoundError" "No such file or directory").

(** A file system with no file at all. *)
Definition no_file (path : string) : Exception + list string :=
  inl (mkException "FileNotFoundError" "No such file or directory").


Definition missing_year (path : string) : Exception + list string :=
  inr [line_1; "     131 0 1 13 -4 2 5 451 5 100000 1 1 9 300 -200 100 -5 -41"].




(** A decoder that finds no row in any file. *)
Definition no_rows (lines : list string) (names : list string)
  : Exception + list RawRow := inr [].

(** Reading a piece as a number: a decimal integer with an optional
    sign, or digits, a point and digits (the quotient, rounded to
    binary64, of two integers); anything else is read as missing. *)
Definition number_of_token (tok : string) : num :=
  let '(negative, body) :=
    match tok with
    | String "-"%char b => (true, b)
    | String "+"%char b => (false, b)
    | _ => (false, tok)
    end in
  match split_on "."%char body with
  | [digits] =>
      match parse_digits digits with
      | Some n => VInt (if negative then - n else n)
      | None => VFloat NaN
      end
  | [whole; fraction] =>
      match parse_digits whole, parse_digits fraction with
      | Some w, Some f =>
          let scale := 10 ^ Z.of_nat (String.length fraction) in
          let v := SFdiv 53 1024 (float64_of_int (w * scale + f)) (float64_of_int scale) in
          VFloat (if negative then SFopp v else v)
      | _, _ => VFloat NaN
      end
  | _ => VFloat NaN
  end.

(** The decoder of [read_fwf] with this reading of numbers. *)
Definition fwf_decode : list string -> list string -> Exception + list RawRow :=
  FixedWidth.decode number_of_token.

(** Day 131 of 2024 with a measured magnitude, the same minute with the
    magnitude missing, and day 366 of 2023, a year of 365 days. *)
Definition row_measured : RawRow :=
  storm_row (VInt 2024) (VInt 131) (VInt 12) (VInt 0)
            (VFloat f4_0) (VFloat (SFopp f3_2)) (VFloat f1_1) (VFloat f4_0).
Definition row_missing_magnitude : RawRow :=
  storm_row (VInt 2024) (VInt 131) (VInt 12) (VInt 1)
            (VFloat NaN) (VFloat (SFopp f3_2)) (VFloat f1_1) (VFloat f4_0).
Definition row_day_366 : RawRow :=
  storm_row (VInt 2023) (VInt 366) (VInt 0) (VInt 0)
            (VFloat f4_0) (VFloat (SFopp f3_2)) (VFloat f1_1) (VFloat f4_0).
(** A row whose day number 400 matches no day of any year. *)
Definition row_day_400 : RawRow :=
  storm_row (VInt 2024) (VInt 400) (VInt 0) (VInt 0)
            (VFloat f4_0) (VFloat (SFopp f3_2)) (VFloat f1_1) (VFloat f4_0).

(** A row of day 132 with the magnitude 12.5. *)
Definition row_strong : RawRow :=
  storm_row (VInt 2024) (VInt 132) (VInt 3) (VInt 30)
            (VFloat f12_5) (VFloat (SFopp f3_2)) (VFloat f1_1) (VFloat f4_0).

(** A mean: the values that are not NaN summed from left to right in
    binary64, divided by their number. *)
Definition series_mean (l : list num) : num :=
  let present := filter (fun v => negb (is_nan v)) l in
  VFloat (SFdiv 53 1024
            (fold_left (fun acc v => SFadd 53 1024 acc (to_float64 v)) present
                       (S754_zero false))
            (float64_of_int (Z.of_nat (List.length present)))).

(** A dataset of four rows: two measured magnitudes, a missing one, and a
    row whose day number gives a null DateTime. *)
Definition storm_data : DataFrame :=
  map (assign_DateTime float_str)
      [row_measured; row_missing_magnitude; row_strong; row_day_400].

(** A dataset whose magnitudes are all missing. *)
Definition storm_data_unmeasured : DataFrame :=
  map (assign_DateTime float_str) [row_missing_magnitude].

(** A decoder that finds the row with the missing magnitude in any file. *)
Definition decode_unmeasured (lines : list string) (names : list string)
  : Exception + list RawRow := inr [row_missing_magnitude].

End Sample.

(* ================================================================= *)
(** * Properties *)

(** ** Lists and subsequences *)

Section ListFacts.
Context {A : Type}.
Implicit Types (l : list A) (p : A -> bool).

Lemma subsequence_refl l : subsequence l l.
Proof. induction l; constructor; assumption. Qed.

Lemma subsequence_filter p l : subsequence (filter p l) l.
Proof.
  induction l as [|a l IH]; simpl.
  - constructor.
  - destruct (p a); [apply subsequence_keep|apply subsequence_skip]; exact IH.
Qed.

(** [filter p l] is the largest subsequence of [l] made of elements
    satisfying [p]. *)
Lemma subsequence_filter_max p l l0 :
  subsequence l0 l -> Forall (fun a => p a = true) l0 ->
  subsequence l0 (filter p l).
Proof.
  induction 1 as [|a l0 l' _ IH|a l0 l' _ IH]; intros Hall; simpl.
  - constructor.
  - destruct (p a); [apply subsequence_skip|]; apply IH; exact Hall.
  - inversion Hall as [|? ? Ha Hl0]; subst.
    rewrite Ha. apply subsequence_keep, IH, Hl0.
Qed.

Lemma filter_none p l : (forall a, In a l -> p a = false) -> filter p l = [].
Proof.
  induction l as [|a l IH]; intros H; simpl; [reflexivity|].
  rewrite (H a (or_introl eq_refl)). apply IH.
  intros b Hb. apply H. right; exact Hb.
Qed.


Lemma filter_idem p l : filter p (filter p l) = filter p l.
Proof.
  induction l as [|a l IH]; simpl; [reflexivity|].
  destruct (p a) eqn:E; simpl; rewrite ?E, IH; reflexivity.
Qed.
End ListFacts.

(** ** The filter of [update_graph] *)

Lemma mask_true (y m : num) (r : Row) :
  mask y m r = true <->
  num_eq (Year r) y = true /\ num_le (Field_Magnitude_Avg r) m = true.
Proof. unfold mask. apply andb_true_iff. Qed.

(** C1.  The filter returns exactly the records whose Year equals the
    selected year and whose Field_Magnitude_Avg is at most the selected
    magnitude: the result is a subsequence of the dataset (original order),
    all its records match, every matching subsequence of the dataset is a
    subsequence of it, membership is matching membership, no match gives
    the empty frame (a value, not an error), and filtering again changes
    nothing. *)
Theorem filtered_data_exact
    (storm_data : DataFrame) (selected_year selected_magnitude : num) :
  let selected (r : Row) :=
    num_eq (Year r) selected_year = true /\
    num_le (Field_Magnitude_Avg r) selected_magnitude = true in
  let result := filtered_data storm_data selected_year selected_magnitude in
  subsequence result storm_data /\
  Forall selected result /\
  (forall l, subsequence l storm_data -> Forall selected l -> subsequence l result) /\
  (forall r, In r result <-> In r storm_data /\ selected r) /\
  ((forall r, In r storm_data -> ~ selected r) -> result = []) /\
  filtered_data result selected_year selected_magnitude = result.
Proof.
  intros selected result. unfold result, filtered_data.
  split; [|split; [|split; [|split; [|split]]]].
  - apply subsequence_filter.
  - apply Forall_forall. intros r Hr. apply filter_In in Hr.
    apply mask_true, Hr.
  - intros l Hsub Hall. apply subsequence_filter_max; [exact Hsub|].
    eapply Forall_impl; [|exact Hall]. intros r Hr. apply mask_true, Hr.
  - intros r. rewrite filter_In, mask_true. reflexivity.
  - intros Hnone. apply filter_none. intros r Hr.
    destruct (mask selected_year selected_magnitude r) eqn:E; [|reflexivity].
    exfalso. apply (Hnone r Hr). apply mask_true, E.
  - apply filter_idem.
Qed.

(** ** The point cloud of [update_graph] *)

(** C7.  The point cloud has one point for each input record, in the same
    order: the five sequences have the input's length and their [i]-th
    entries are read off the [i]-th record; the colour values are the
    records' Field_Magnitude_Avg; no record gives the empty cloud; and the
    figure holds this one trace, built from the filtered records. *)
Theorem scatter3d_pointwise (records : DataFrame) :
  let cloud := scatter3d records in
  (List.length (x cloud) = List.length records /\
   List.length (y cloud) = List.length records /\
   List.length (z cloud) = List.length records /\
   List.length (marker_color cloud) = List.length records /\
   List.length (text cloud) = List.length records) /\
  (forall (i : nat) (r : Row), nth_error records i = Some r ->
     nth_error (x cloud) i = Some (BX r) /\
     nth_error (y cloud) i = Some (BY r) /\
     nth_error (z cloud) i = Some (BZ r) /\
     nth_error (marker_color cloud) i = Some (Field_Magnitude_Avg r) /\
     nth_error (text cloud) i = Some (Pandas.dt_strftime (DateTime r))) /\
  marker_color cloud = map (fun r : Row => Field_Magnitude_Avg r) records /\
  scatter3d [] = mkScatter3d [] [] [] [] [] /\
  (forall (storm_data : DataFrame) (selected_year selected_magnitude : num),
     data (update_graph storm_data selected_year selected_magnitude) =
     [scatter3d (filtered_data storm_data selected_year selected_magnitude)]).
Proof.
  intros cloud. unfold cloud, scatter3d; simpl.
  repeat split; try apply length_map; try reflexivity;
    rewrite nth_error_map, H; reflexivity.
Qed.

(** ** Comparison with positive infinity *)

Section Binary64.

Lemma shr_1_nonneg (mrs : shr_record) : 0 <= shr_m mrs -> 0 <= shr_m (shr_1 mrs).
Proof.
  destruct mrs as [m r s]; simpl.
  destruct m as [|[p|p|]|[p|p|]]; simpl; lia.
Qed.

Lemma iter_pos_preserves {T : Type} (P : T -> Prop) (f : T -> T) :
  (forall a, P a -> P (f a)) -> forall (p : positive) (a : T), P a -> P (iter_pos f p a).
Proof.
  intros Hf. induction p as [p IH|p IH|]; intros a Ha; simpl.
  - apply IH, IH, Hf, Ha.
  - apply IH, IH, Ha.
  - apply Hf, Ha.
Qed.

Lemma shr_nonneg (mrs : shr_record) (e n : Z) :
  0 <= shr_m mrs -> 0 <= shr_m (fst (shr mrs e n)).
Proof.
  intros H. unfold shr. destruct n as [|p|p]; simpl; try exact H.
  apply (iter_pos_preserves (fun r => 0 <= shr_m r)); [apply shr_1_nonneg|exact H].
Qed.

Lemma shr_fexp_nonneg (prec emax m e : Z) (l : location) :
  0 <= m -> 0 <= shr_m (fst (shr_fexp prec emax m e l)).
Proof.
  intros H. unfold shr_fexp. apply shr_nonneg.
  destruct l as [|[ | | ]]; exact H.
Qed.

Lemma round_nearest_even_nonneg (mx : Z) (lx : location) :
  0 <= mx -> 0 <= round_nearest_even mx lx.
Proof.
  intros H. unfold round_nearest_even.
  destruct lx as [|[ | | ]]; try destruct (Z.even mx); lia.
Qed.

(** Rounding a non-negative mantissa never produces NaN. *)
Lemma binary_round_aux_not_nan (prec emax : Z) (sx : bool) (mx ex : Z) (lx : location) :
  0 <= mx -> binary_round_aux prec emax sx mx ex lx <> S754_nan.
Proof.
  intros H. unfold binary_round_aux.
  pose proof (shr_fexp_nonneg prec emax mx ex lx H) as H1.
  destruct (shr_fexp prec emax mx ex lx) as [mrs' e']. simpl in H1.
  pose proof (shr_fexp_nonneg prec emax _ e' loc_Exact
                (round_nearest_even_nonneg _ (loc_of_shr_record mrs') H1)) as H2.
  destruct (shr_fexp prec emax _ e' loc_Exact) as [mrs'' e'']. simpl in H2.
  destruct (shr_m mrs'') as [|m|m];
    [discriminate | destruct (e'' <=? emax - prec); discriminate | lia].
Qed.

Lemma float64_of_int_not_nan (n : Z) : float64_of_int n <> S754_nan.
Proof.
  unfold float64_of_int, binary_normalize.
  destruct n as [|p|p]; [discriminate| |];
    unfold binary_round;
    destruct (shl_align _ _ _) as [mz ez];
    apply binary_round_aux_not_nan; lia.
Qed.

Lemma SFleb_infinity (f : spec_float) :
  f <> S754_nan -> SFleb f pos_infinity = true.
Proof.
  destruct f as [s|s| |s m e]; intros H; try reflexivity.
  - destruct s; reflexivity.
  - contradiction.
Qed.

(** Everything but NaN is at most positive infinity. *)
Lemma num_le_infinity (v : num) : num_le v (VFloat pos_infinity) = negb (is_nan v).
Proof.
  destruct v as [n|f]; simpl.
  - apply SFleb_infinity, float64_of_int_not_nan.
  - destruct f as [s|s| |s m e]; try reflexivity; destruct s; reflexivity.
Qed.

End Binary64.

(** C8, as the code has it.  With the magnitude bound at positive infinity
    the filter returns the records of the selected year whose
    Field_Magnitude_Avg is not NaN; when no magnitude of the dataset is
    NaN, these are exactly the records of that year. *)
Theorem filtered_data_infinite_bound (storm_data : DataFrame) (selected_year : num) :
  filtered_data storm_data selected_year (VFloat pos_infinity) =
    filter (fun r : Row => num_eq (Year r) selected_year &&
                           negb (is_nan (Field_Magnitude_Avg r))) storm_data /\
  ((forall r : Row, In r storm_data -> is_nan (Field_Magnitude_Avg r) = false) ->
   filtered_data storm_data selected_year (VFloat pos_infinity) =
     filter (fun r : Row => num_eq (Year r) selected_year) storm_data).
Proof.
  unfold filtered_data. split.
  - apply filter_ext. intros r. unfold mask. rewrite num_le_infinity. reflexivity.
  - intros Hnan. apply filter_ext_in. intros r Hr. unfold mask.
    rewrite num_le_infinity, (Hnan r Hr). apply andb_true_r.
Qed.

(** C8 as stated fails: in a dataset of two records of year 2024, one of
    them with a missing (NaN) magnitude, both records have the selected
    year, and the filter with the bound at positive infinity returns only
    the record whose magnitude was measured. *)
Lemma nan_magnitude_dropped_at_infinity :
  let storm_data :=
    map (assign_DateTime Sample.float_str)
        [Sample.row_measured; Sample.row_missing_magnitude] in
  filter (fun r : Row => num_eq (Year r) (VInt 2024)) storm_data = storm_data /\
  filtered_data storm_data (VInt 2024) (VFloat pos_infinity) =
    map (assign_DateTime Sample.float_str) [Sample.row_measured].
Proof. split; reflexivity. Qed.

(** ** The schema *)



(** ** The parser and the start-up branch *)

Section Parser.

Variable float_str : spec_float -> string.
Variable open_text : string -> Exception + list string.
Variable fwf_decode : list string -> list string -> Exception + list RawRow.

Local Abbreviation read_fwf' := (read_fwf open_text fwf_decode).
Local Abbreviation read_data' := (read_data float_str open_text fwf_decode).
Local Abbreviation script' := (script float_str open_text fwf_decode).
Local Abbreviation assign := (assign_DateTime float_str).

(** The two runs of [read_data]. *)
Lemma read_data_raised (lst_file : string) (e : Exception) (out : list output) :
  read_fwf' lst_file column_names = inl e ->
  read_data' lst_file out =
    (inr DataFrame_empty,
     (out ++ [Line ("Error reading the LST file: " ++ exc_message e)])%list).
Proof.
  intros H. unfold read_data, try_except, bind, call, print, ret.
  rewrite H. reflexivity.
Qed.

Lemma read_data_decoded (lst_file : string) (rows : list RawRow) (out : list output) :
  read_fwf' lst_file column_names = inr rows -> rows <> [] ->
  read_data' lst_file out =
    (inr (map assign rows),
     (((out ++ [Line "Data read successfully. First few rows:"])
         ++ [Head (firstn 5 rows)])
         ++ [Line ("Number of records: " ++
                   str_int (Z.of_nat (List.length (map assign rows))))])%list).
Proof.
  intros H Hne. unfold read_data, try_except, bind, call, print, ret.
  rewrite H. destruct rows as [|r rows]; [contradiction|reflexivity].
Qed.

(** A file decoded into no row: the banner and the empty head are
    printed, then [pd.to_datetime] raises and the handler takes over. *)
Lemma read_data_no_rows (lst_file : string) (out : list output) :
  read_fwf' lst_file column_names = inr [] ->
  read_data' lst_file out =
    (inr DataFrame_empty,
     (((out ++ [Line "Data read successfully. First few rows:"])
         ++ [Head []])
         ++ [Line ("Error reading the LST file: " ++ exc_message assemble_error)])%list).
Proof.
  intros H. unfold read_data, try_except, bind, call, print, ret.
  rewrite H. reflexivity.
Qed.


Lemma read_data_returns (lst_file : string) (out : list output) :
  exists (df : DataFrame) (out' : list output),
    read_data' lst_file out = (inr df, out').
Proof.
  destruct (read_fwf' lst_file column_names) as [e|[|r rows]] eqn:E.
  - eexists; eexists. apply (read_data_raised _ _ _ E).
  - eexists; eexists. apply (read_data_no_rows _ _ E).
  - eexists; eexists. apply (read_data_decoded _ _ _ E). discriminate.
Qed.

Lemma script_of_read_data (out out' : list output) (df : DataFrame) :
  read_data' lst_file_path out = (inr df, out') ->
  script' out =
    if empty df
    then (inr NoDashboard,
          (out' ++ [Line "The DataFrame is empty. Please check the LST file format."])%list)
    else (inr (BuildDashboard df), out').
Proof.
  intros H. unfold script, bind. rewrite H.
  destruct (empty df); reflexivity.
Qed.






(** C10.  [read_data] never raises: for every path and whatever the file
    system and the decoder do, it returns a frame.  Every exception of
    the reading stage gives the empty frame, and so does a file decoded
    into no row at all: the caller cannot tell the two apart, and in both
    cases the script ends without a dashboard. *)
Theorem read_data_never_raises (lst_file : string) (out : list output) :
  (exists (df : DataFrame) (out' : list output),
     read_data' lst_file out = (inr df, out')) /\
  (forall e : Exception,
     read_fwf' lst_file column_names = inl e ->
     fst (read_data' lst_file out) = inr DataFrame_empty) /\
  (read_fwf' lst_file column_names = inr [] ->
   fst (read_data' lst_file out) = inr DataFrame_empty) /\
  (fst (read_data' lst_file_path out) = inr DataFrame_empty ->
   fst (script' out) = inr NoDashboard).
Proof.
  split; [apply read_data_returns|]. split; [|split].
  - intros e H. rewrite (read_data_raised _ _ _ H). reflexivity.
  - intros H. rewrite (read_data_no_rows _ _ H). reflexivity.
  - intros H.
    destruct (read_data_returns lst_file_path out) as (df & out1 & Hr).
    rewrite Hr in H. simpl in H. injection H as ->.
    rewrite (script_of_read_data _ _ _ Hr). reflexivity.
Qed.

(** C6.  For a click event carrying a point, the echo is the fixed text
    with the point's label and coordinates substituted as Python prints
    them (a string label is substituted as it is); with no click it is
    the fixed placeholder. *)
Theorem display_click_data_format :
  (forall (pt : point) (others : list point),
     display_click_data float_str (Some (mkClick (pt :: others))) =
       inr ("Clicked Point: DateTime: " ++ py_str float_str (point_text pt) ++
            ", BX: " ++ py_str float_str (point_x pt) ++
            ", BY: " ++ py_str float_str (point_y pt) ++
            ", BZ: " ++ py_str float_str (point_z pt))) /\
  (forall (label : string) (px py pz : pyval) (others : list point),
     display_click_data float_str
       (Some (mkClick (mkPoint (PyStr label) px py pz :: others))) =
       inr ("Clicked Point: DateTime: " ++ label ++
            ", BX: " ++ py_str float_str px ++
            ", BY: " ++ py_str float_str py ++
            ", BZ: " ++ py_str float_str pz)) /\
  display_click_data float_str None = inr "Click on a point to see details.".
Proof. repeat split. Qed.

End Parser.

(** The example of the specification: the point labelled 2024-05-10 12:00
    at (-3.2, 1.1, 4.0). *)
Example display_click_data_example :
  display_click_data Sample.float_str
    (Some (mkClick [mkPoint (PyStr "2024-05-10 12:00")
                            (PyFloat (SFopp Sample.f3_2))
                            (PyFloat Sample.f1_1) (PyFloat Sample.f4_0)])) =
  inr "Clicked Point: DateTime: 2024-05-10 12:00, BX: -3.2, BY: 1.1, BZ: 4.0".
Proof. reflexivity. Qed.

(** ** The columns and the kept lines of [read_fwf] *)

Section Columns.
Import FixedWidth.






Lemma get_beyond (s : string) : forall i : nat,
  (String.length s <= i)%nat -> String.get i s = None.
Proof.
  induction s as [|c0 s IH]; intros i H; [destruct i; reflexivity|].
  destruct i as [|i]; simpl in *; [lia|]. apply IH. lia.
Qed.
















Lemma table_length (lines : list string) :
  (List.length (table lines) <= List.length lines)%nat.
Proof.
  unfold table.
  etransitivity; [apply filter_length_le|]. rewrite length_map. lia.
Qed.




End Columns.

(** ** The reader over a file *)

Section Reader.

Variable float_str : spec_float -> string.
Variable open_text : string -> Exception + list string.
Variable number_of_token : string -> num.

Local Abbreviation decode := (FixedWidth.decode number_of_token).
Local Abbreviation read_fwf' := (read_fwf open_text decode).
Local Abbreviation read_data' := (read_data float_str open_text decode).
Local Abbreviation script' := (script float_str open_text decode).
Local Abbreviation assign := (assign_DateTime float_str).
Local Abbreviation row_of := (FixedWidth.row_of_fields number_of_token column_names).
Local Abbreviation colspecs_of lines :=
  (FixedWidth.detect_colspecs (firstn FixedWidth.infer_nrows lines)).



















End Reader.

(** ** Text: splitting, digits, decimal printing *)

Section TextFacts.

Lemma split_on_nonempty (sep : ascii) (s : string) : split_on sep s <> [].
Proof.
  destruct s as [|c s]; simpl; [discriminate|].
  destruct (Ascii.eqb c sep); [discriminate|].
  destruct (split_on sep s); discriminate.
Qed.

(** Splitting at the separator that joins two strings splits each. *)
Lemma split_on_app (sep : ascii) (s1 s2 : string) :
  split_on sep (s1 ++ String sep s2) = (split_on sep s1 ++ split_on sep s2)%list.
Proof.
  induction s1 as [|c s1 IH]; simpl.
  - rewrite Ascii.eqb_refl. reflexivity.
  - destruct (Ascii.eqb c sep).
    + rewrite IH. reflexivity.
    + rewrite IH. pose proof (split_on_nonempty sep s1) as Hne.
      destruct (split_on sep s1) as [|h t]; [contradiction|reflexivity].
Qed.



Lemma parse_digits_alt (s : string) :
  parse_digits s = option_map Z.of_uint (NilZero.uint_of_string s).
Proof. destruct s; reflexivity. Qed.

Lemma uint_of_char_none (c : ascii) : uint_of_char c None = None.
Proof. reflexivity. Qed.

(** A string of digits holds no separator that is not a digit. *)
Lemma digits_split_single (sep : ascii) (s : string) (d : Decimal.uint) :
  (forall d0, uint_of_char sep (Some d0) = None) ->
  NilEmpty.uint_of_string s = Some d -> split_on sep s = [s].
Proof.
  intros Hsep. revert d. induction s as [|c s IH]; simpl; intros d H; [reflexivity|].
  destruct (NilEmpty.uint_of_string s) as [d0|] eqn:E; [|discriminate H].
  destruct (Ascii.eqb_spec c sep) as [->|_].
  - rewrite Hsep in H. discriminate H.
  - rewrite (IH d0 eq_refl). reflexivity.
Qed.

Lemma parse_digits_no_dash (s : string) (n : Z) :
  parse_digits s = Some n -> split_dash s = [s].
Proof.
  rewrite parse_digits_alt. unfold NilZero.uint_of_string, split_dash.
  destruct s as [|c s]; [discriminate|].
  destruct (NilEmpty.uint_of_string (String c s)) as [d|] eqn:E; [|discriminate].
  intros _. apply (digits_split_single _ _ d); [reflexivity|exact E].
Qed.



(** Checking a property of all integers of a range by enumeration. *)
Lemma Z_range_forall (P : Z -> bool) (lo : Z) (n : nat) :
  forallb P (Z_range lo n) = true ->
  forall z, lo <= z < lo + Z.of_nat n -> P z = true.
Proof.
  intros H z Hz. rewrite forallb_forall in H. apply H.
  unfold Z_range. apply in_map_iff. exists (Z.to_nat (z - lo)).
  split; [lia|]. apply in_seq. lia.
Qed.

End TextFacts.

(** ** The directives of the format *)

Section Directives.

Lemma directive_spec (lo_len hi_len : nat) (lo hi : Z) (s : string) (k : Z) :
  Pandas.directive lo_len hi_len lo hi s = Some k <->
  parse_digits s = Some k /\
  (lo_len <= String.length s <= hi_len)%nat /\ lo <= k <= hi.
Proof.
  unfold Pandas.directive. destruct (parse_digits s) as [n|]; [|intuition discriminate].
  destruct ((lo_len <=? String.length s)%nat && (String.length s <=? hi_len)%nat
            && (lo <=? n) && (n <=? hi)) eqn:E.
  - rewrite !andb_true_iff in E. destruct E as (((E1 & E2) & E3) & E4).
    apply Nat.leb_le in E1, E2. apply Z.leb_le in E3, E4.
    split.
    + intros [= <-]. repeat split; assumption.
    + intros ([= <-] & _). reflexivity.
  - split; [discriminate|]. intros ([= <-] & (H1 & H2) & (H3 & H4)).
    apply Nat.leb_le in H1, H2. apply Z.leb_le in H3, H4.
    rewrite H1, H2, H3, H4 in E. discriminate E.
Qed.

Lemma directive_str_range (d : string -> option Z) (lo : Z) (n : nat) :
  forallb (fun z => match d (str_int z) with
                    | Some k => k =? z
                    | None => false
                    end) (Z_range lo n) = true ->
  forall z, lo <= z < lo + Z.of_nat n -> d (str_int z) = Some z.
Proof.
  intros Hall z Hz.
  pose proof (Z_range_forall _ lo n Hall z Hz) as E. simpl in E.
  destruct (d (str_int z)) as [k|]; [|discriminate].
  apply Z.eqb_eq in E. subst. reflexivity.
Qed.

(** Printed years, days, hours and minutes in range match their
    directive and read back. *)
Lemma directive_Y_str (n : Z) :
  1676 <= n <= 2262 -> Pandas.directive_Y (str_int n) = Some n.
Proof.
  intros H. apply (directive_str_range _ 1676 (Z.to_nat 587));
    [vm_compute; reflexivity|lia].
Qed.

Lemma directive_j_str (n : Z) :
  1 <= n <= 366 -> Pandas.directive_j (str_int n) = Some n.
Proof.
  intros H. apply (directive_str_range _ 1 (Z.to_nat 366));
    [vm_compute; reflexivity|lia].
Qed.

Lemma directive_H_str (n : Z) :
  0 <= n <= 23 -> Pandas.directive_H (str_int n) = Some n.
Proof.
  intros H. apply (directive_str_range _ 0 (Z.to_nat 24));
    [vm_compute; reflexivity|lia].
Qed.

Lemma directive_M_str (n : Z) :
  0 <= n <= 59 -> Pandas.directive_M (str_int n) = Some n.
Proof.
  intros H. apply (directive_str_range _ 0 (Z.to_nat 60));
    [vm_compute; reflexivity|lia].
Qed.

End Directives.

(** ** Calendar *)

Section Calendar.

Lemma month_day_bounds (lens : list Z) (n : nat) (j : Z) :
  forallb (fun z => let '(m, d) := month_day lens 1 z in
                    (1 <=? m) && (m <=? 12) && (1 <=? d) && (d <=? 31))
          (Z_range 1 n) = true ->
  1 <= j < 1 + Z.of_nat n ->
  let '(m, d) := month_day lens 1 j in 1 <= m <= 12 /\ 1 <= d <= 31.
Proof.
  intros Hall Hj. pose proof (Z_range_forall _ 1 n Hall j Hj) as E.
  cbv beta in E. destruct (month_day lens 1 j) as [m d].
  rewrite !andb_true_iff, !Z.leb_le in E. lia.
Qed.

(** Day [j] counted from 1 January of [y] is a calendar date of [y] or, for
    day 366 of a year of 365 days, 1 January of [y + 1]. *)
Lemma date_of_julian_spec (y j : Z) :
  1 <= j <= 366 ->
  let '(y', mo, d) := date_of_julian y j in
  1 <= mo <= 12 /\ 1 <= d <= 31 /\
  ((y' = y /\ j <= days_in_year y) \/
   (y' = y + 1 /\ mo = 1 /\ d = 1 /\ j = 366 /\ is_leap y = false)).
Proof.
  intros H. unfold date_of_julian, days_in_year, month_lengths.
  destruct (is_leap y) eqn:Ey.
  - change (if true then 29 else 28) with 29.
    destruct (Z.leb_spec j 366) as [Hj|Hj]; [|lia].
    pose proof (month_day_bounds [31; 29; 31; 30; 31; 30; 31; 31; 30; 31; 30; 31]
                  (Z.to_nat 366) j ltac:(vm_compute; reflexivity) ltac:(lia)) as B.
    destruct (month_day _ 1 j) as [m d]. split; [|split]; [lia|lia|left; lia].
  - change (if false then 29 else 28) with 28.
    destruct (Z.leb_spec j 365) as [Hj|Hj].
    + pose proof (month_day_bounds [31; 28; 31; 30; 31; 30; 31; 31; 30; 31; 30; 31]
                    (Z.to_nat 365) j ltac:(vm_compute; reflexivity) ltac:(lia)) as B.
      destruct (month_day _ 1 j) as [m d]. split; [|split]; [lia|lia|left; lia].
    + assert (j = 366) by lia. subst j.
      destruct (is_leap (y + 1)); simpl;
        (split; [|split]; [lia|lia|right; repeat split; reflexivity]).
Qed.

(** A timestamp within the nanosecond range has a year of four digits. *)
Lemma in_ns_bounds_year (t : datetime) :
  1 <= month t <= 12 -> 1 <= day t <= 31 -> 0 <= hour t <= 23 -> 0 <= minute t <= 59 ->
  in_ns_bounds t = true -> 1677 <= year t <= 2262.
Proof.
  intros Hmo Hd Hh Hmi H. unfold in_ns_bounds in H.
  apply andb_true_iff in H. destruct H as [H1 H2].
  apply Z.leb_le in H1, H2.
  unfold minute_key, Timestamp_min, Timestamp_max in H1, H2. simpl in H1, H2. lia.
Qed.

End Calendar.

(** ** The derived DateTime *)

Section Timestamps.

Variable float_str : spec_float -> string.

(** Python never prints a float as digits alone: the text has a point, an
    exponent, [inf] or [nan]. *)
Hypothesis float_str_not_digits : forall f, parse_digits (float_str f) = None.

Local Abbreviation assign := (assign_DateTime float_str).


Lemma composite_split (r : RawRow) :
  split_dash (composite float_str r) =
    (split_dash (astype_str float_str (Year r)) ++
     split_dash (astype_str float_str (Day r)) ++
     split_dash (astype_str float_str (Hour r)) ++
     split_dash (astype_str float_str (Minute r)))%list.
Proof.
  unfold composite, join_dash, split_dash. simpl.
  rewrite !split_on_app. reflexivity.
Qed.


(** Integer cells the format accepts, with a year of the nanosecond range
    or the year before, do match. *)
Lemma match_format_composite_intro (r : RawRow) (y j h m : Z) :
  Year r = VInt y -> Day r = VInt j -> Hour r = VInt h -> Minute r = VInt m ->
  1676 <= y <= 2262 -> accepted_ordinal j h m = true ->
  Pandas.match_format (composite float_str r) = Some (y, j, h, m).
Proof.
  intros Ey Ej Eh Em Hy Hacc.
  unfold Pandas.match_format. rewrite composite_split.
  unfold accepted_ordinal in Hacc. rewrite !andb_true_iff, !Z.leb_le in Hacc.
  rewrite Ey, Ej, Eh, Em. simpl.
  pose proof (directive_Y_str y ltac:(lia)) as Dy.
  pose proof (directive_j_str j ltac:(lia)) as Dj.
  pose proof (directive_H_str h ltac:(lia)) as Dh.
  pose proof (directive_M_str m ltac:(lia)) as Dm.
  rewrite (parse_digits_no_dash (str_int y) y) by (apply directive_spec in Dy; apply Dy).
  rewrite (parse_digits_no_dash (str_int j) j) by (apply directive_spec in Dj; apply Dj).
  rewrite (parse_digits_no_dash (str_int h) h) by (apply directive_spec in Dh; apply Dh).
  rewrite (parse_digits_no_dash (str_int m) m) by (apply directive_spec in Dm; apply Dm).
  simpl. rewrite Dy, Dj, Dh, Dm. reflexivity.
Qed.


End Timestamps.

Section PerRow.

Variable float_str : spec_float -> string.
Variable open_text : string -> Exception + list string.
Variable number_of_token : string -> num.
Hypothesis float_str_not_digits : forall f, parse_digits (float_str f) = None.

Local Abbreviation assign := (assign_DateTime float_str).
Local Abbreviation decode := (FixedWidth.decode number_of_token).
Local Abbreviation row_of := (FixedWidth.row_of_fields number_of_token column_names).






End PerRow.



(** C2 as stated fails in a second way: the rows are not independent.
    The sample file gives its two records the DateTime of their lines;
    the same file with the Year of the second line blanked out gives a
    null DateTime to both records, the first line being what it was: the
    Year column has become float64, and the text of the first Year is
    2024.0. *)
Example missing_Year_nulls_every_row :
  option_map (map DateTime)
    (match fst (read_data Sample.float_str Sample.open_text Sample.fwf_decode
                          lst_file_path []) with
     | inr storm_data => Some storm_data
     | inl _ => None
     end) =
    Some [Some (mkDatetime 2024 5 10 0 0); Some (mkDatetime 2024 5 10 0 1)] /\
  option_map (map (fun r : Row => (Year r, DateTime r)))
    (match fst (read_data Sample.float_str Sample.missing_year Sample.fwf_decode
                          lst_file_path []) with
     | inr storm_data => Some storm_data
     | inl _ => None
     end) =
    Some [(VFloat (float64_of_int 2024), NaT); (VFloat NaN, NaT)] /\
  Sample.float_str (float64_of_int 2024) = "2024.0".
Proof. vm_compute. repeat split. Qed.


(** ** The hover label *)

Section HoverLabel.

Lemma padded_range (width : nat) (lo : Z) (k : nat) :
  forallb (fun z => let s := zfill width (str_int z) in
                    (String.length s =? width)%nat && string_forallb is_digit s &&
                    match parse_digits s with
                    | Some v => v =? z
                    | None => false
                    end) (Z_range lo k) = true ->
  forall n, lo <= n < lo + Z.of_nat k -> padded width n (zfill width (str_int n)).
Proof.
  intros Hall n Hn. pose proof (Z_range_forall _ lo k Hall n Hn) as E.
  cbv beta zeta in E. rewrite !andb_true_iff in E. destruct E as ((E1 & E2) & E3).
  unfold padded. apply Nat.eqb_eq in E1.
  destruct (parse_digits _) as [v|]; [|discriminate E3].
  apply Z.eqb_eq in E3. subst v. repeat split; assumption.
Qed.

Lemma padded_2 (n : Z) : 0 <= n <= 99 -> padded 2 n (zfill 2 (str_int n)).
Proof.
  intros H. apply (padded_range 2 0 (Z.to_nat 100));
    [vm_compute; reflexivity|lia].
Qed.

Lemma padded_4 (n : Z) : 1677 <= n <= 2262 -> padded 4 n (zfill 4 (str_int n)).
Proof.
  intros H. apply (padded_range 4 1677 (Z.to_nat 586));
    [vm_compute; reflexivity|lia].
Qed.

(** The fields of a timestamp that [to_datetime] produced. *)
Lemma to_datetime_fields (s : string) (t : datetime) :
  Pandas.to_datetime s = Some t ->
  1677 <= year t <= 2262 /\ 1 <= month t <= 12 /\ 1 <= day t <= 31 /\
  0 <= hour t <= 23 /\ 0 <= minute t <= 59.
Proof.
  unfold Pandas.to_datetime, Pandas.match_format.
  destruct (split_dash s) as [|sy [|sj [|sh [|sm [|extra rest]]]]]; try discriminate.
  destruct (Pandas.directive_Y sy) as [y|]; [|discriminate].
  destruct (Pandas.directive_j sj) as [j|] eqn:Dj; [|discriminate].
  destruct (Pandas.directive_H sh) as [h|] eqn:Dh; [|discriminate].
  destruct (Pandas.directive_M sm) as [m|] eqn:Dm; [|discriminate].
  apply directive_spec in Dj, Dh, Dm.
  pose proof (date_of_julian_spec y j ltac:(lia)) as D.
  destruct (date_of_julian y j) as [[y' mo] d].
  destruct (in_ns_bounds _) eqn:Eb; [|discriminate].
  intros [= <-]. simpl.
  assert (Hy : 1677 <= y' <= 2262).
  { apply (in_ns_bounds_year (mkDatetime y' mo d h m)); simpl; try lia. exact Eb. }
  lia.
Qed.

(** The text [YYYY-MM-DD HH:MM] of such a timestamp. *)
Lemma format_datetime_shape (t : datetime) :
  1677 <= year t <= 2262 -> 0 <= month t <= 99 -> 0 <= day t <= 99 ->
  0 <= hour t <= 99 -> 0 <= minute t <= 99 ->
  exists YYYY MM DD hh mm : string,
    Pandas.format_datetime t = YYYY ++ "-" ++ MM ++ "-" ++ DD ++ " " ++ hh ++ ":" ++ mm /\
    padded 4 (year t) YYYY /\ padded 2 (month t) MM /\ padded 2 (day t) DD /\
    padded 2 (hour t) hh /\ padded 2 (minute t) mm.
Proof.
  intros Hy Hmo Hd Hh Hmi.
  exists (zfill 4 (str_int (year t))), (zfill 2 (str_int (month t))),
         (zfill 2 (str_int (day t))), (zfill 2 (str_int (hour t))),
         (zfill 2 (str_int (minute t))).
  split; [reflexivity|].
  repeat split; try apply padded_4; try apply padded_2; assumption.
Qed.

End HoverLabel.

(** C5, as the code has it.  The hover label of a record is the text of
    [.dt.strftime('%Y-%m-%d %H:%M')] for its DateTime: when the DateTime is
    not null it is the instant written [YYYY-MM-DD HH:MM] (for a DateTime
    that [to_datetime] produced: four digits of year, two of month, day,
    hour and minute, with these separators); when the DateTime is null the
    label is the missing value, not a string: there is no sentinel text. *)
Theorem hover_label_of_record (r : Row) :
  text (scatter3d [r]) = [Pandas.dt_strftime (DateTime r)] /\
  (forall t : datetime,
     DateTime r = Some t ->
     Pandas.dt_strftime (DateTime r) = Some (Pandas.format_datetime t)) /\
  (DateTime r = NaT -> Pandas.dt_strftime (DateTime r) = None) /\
  (forall (s : string) (t : datetime),
     DateTime r = Pandas.to_datetime s -> DateTime r = Some t ->
     exists YYYY MM DD hh mm : string,
       Pandas.dt_strftime (DateTime r) =
         Some (YYYY ++ "-" ++ MM ++ "-" ++ DD ++ " " ++ hh ++ ":" ++ mm) /\
       padded 4 (year t) YYYY /\ padded 2 (month t) MM /\ padded 2 (day t) DD /\
       padded 2 (hour t) hh /\ padded 2 (minute t) mm).
Proof.
  split; [reflexivity|]. split; [|split].
  - intros t ->. reflexivity.
  - intros ->. reflexivity.
  - intros s t Hs Ht. rewrite Ht in Hs. symmetry in Hs.
    apply to_datetime_fields in Hs.
    destruct (format_datetime_shape t) as (Y & Mo & D & H & Mi & E & P);
      try lia.
    exists Y, Mo, D, H, Mi. rewrite Ht. simpl. rewrite E. split; [reflexivity|exact P].
Qed.

(** C5 as stated fails: the record of day 400 has a null DateTime, and its
    hover label is the missing value, not a sentinel string. *)
Lemma null_DateTime_has_no_label :
  DateTime (assign_DateTime Sample.float_str Sample.row_day_400) = NaT /\
  text (scatter3d [assign_DateTime Sample.float_str Sample.row_day_400]) = [None].
Proof. split; reflexivity. Qed.

(** ** The properties at the sample inputs *)






(** A file decoded into no row gives the empty frame, as a missing file
    does. *)
Lemma read_data_never_raises_witness :
  read_fwf Sample.open_text Sample.no_rows lst_file_path column_names = inr [] /\
  fst (read_data Sample.float_str Sample.open_text Sample.no_rows lst_file_path []) =
    inr DataFrame_empty /\
  fst (read_data Sample.float_str Sample.no_file Sample.fwf_decode lst_file_path []) =
    inr DataFrame_empty.
Proof.
  split; [reflexivity|]. split.
  - pose proof (read_data_never_raises
                  Sample.float_str Sample.open_text Sample.no_rows lst_file_path [])
      as (_ & _ & Hzero & _).
    exact (Hzero eq_refl).
  - pose proof (read_data_never_raises
                  Sample.float_str Sample.no_file Sample.fwf_decode lst_file_path [])
      as (_ & Hraise & _).
    exact (Hraise _ eq_refl).
Defined.

(** The filter at the sample rows: the year 2024 with the bound 4.0 keeps
    the two records of 2024 with a measured magnitude, in order. *)
Example filtered_data_example :
  filtered_data
    (map (assign_DateTime Sample.float_str)
         [Sample.row_measured; Sample.row_missing_magnitude;
          Sample.row_day_366; Sample.row_day_400])
    (VInt 2024) (VFloat Sample.f4_0) =
  map (assign_DateTime Sample.float_str) [Sample.row_measured; Sample.row_day_400].
Proof. reflexivity. Qed.

(* ================================================================= *)
(** * The layout and the callbacks together *)

(** ** The order of binary64 and of numeric cells *)

Section NumOrder.

Lemma SFcompare_refl (f : spec_float) : f <> S754_nan -> SFcompare f f = Some Eq.
Proof.
  destruct f as [[]|[]| |[] m e]; intros H; try reflexivity; try contradiction;
    simpl; rewrite Z.compare_refl, Pos.compare_cont_refl; reflexivity.
Qed.

Lemma SFcompare_antisym (a b : spec_float) :
  SFcompare b a = option_map CompOpp (SFcompare a b).
Proof.
  destruct a as [[]|[]| |[] ma ea], b as [[]|[]| |[] mb eb]; try reflexivity;
    simpl; rewrite (Z.compare_antisym ea eb);
    destruct (ea ?= eb); simpl; try reflexivity;
    rewrite (Pos.compare_cont_antisym ma mb Eq); reflexivity.
Qed.

Lemma SFleb_refl (f : spec_float) : f <> S754_nan -> SFleb f f = true.
Proof. intros H. unfold SFleb. rewrite (SFcompare_refl f H). reflexivity. Qed.

Lemma SFeqb_refl (f : spec_float) : f <> S754_nan -> SFeqb f f = true.
Proof. intros H. unfold SFeqb. rewrite (SFcompare_refl f H). reflexivity. Qed.

(** Of two floats that are not NaN, one is at most the other. *)
Lemma SFleb_total (a b : spec_float) :
  a <> S754_nan -> b <> S754_nan -> SFleb a b = false -> SFleb b a = true.
Proof.
  intros Ha Hb. unfold SFleb. rewrite (SFcompare_antisym a b).
  destruct (SFcompare a b) as [[ | | ]|] eqn:E; simpl; try discriminate; try reflexivity.
  destruct a as [[]|[]| |[] ma ea], b as [[]|[]| |[] mb eb];
    try contradiction; discriminate E.
Qed.

Lemma SFleb_trans (a b c : spec_float) :
  SFleb a b = true -> SFleb b c = true -> SFleb a c = true.
Proof.
  unfold SFleb, SFcompare.
  destruct a as [[]|[]| |[] ma ea], b as [[]|[]| |[] mb eb], c as [[]|[]| |[] mc ec];
    try reflexivity; try discriminate; intros H1 H2; try reflexivity;
    change (Pos.compare_cont Eq) with Pos.compare in *;
    destruct (Z.compare_spec ea eb); try discriminate H1;
    destruct (Z.compare_spec eb ec); try discriminate H2;
    destruct (Z.compare_spec ea ec); subst; try lia; try reflexivity;
    destruct (Pos.compare_spec ma mb); try discriminate H1;
    destruct (Pos.compare_spec mb mc); try discriminate H2;
    destruct (Pos.compare_spec ma mc); subst; try lia; reflexivity.
Qed.

Lemma is_nan_float (f : spec_float) : is_nan (VFloat f) = false -> f <> S754_nan.
Proof. intros H ->. discriminate H. Qed.

Lemma int_not_nan (v : num) : is_int v = true -> is_nan v = false.
Proof. destruct v; [reflexivity|discriminate]. Qed.

Lemma num_le_refl (v : num) : is_nan v = false -> num_le v v = true.
Proof.
  destruct v as [n|f]; simpl; intros H.
  - apply Z.leb_refl.
  - apply SFleb_refl, is_nan_float, H.
Qed.

Lemma num_same_refl (v : num) : num_same v v = true.
Proof.
  unfold num_same. destruct v as [n|f]; simpl.
  - rewrite Z.eqb_refl. reflexivity.
  - destruct f as [s|s| |s m e]; try reflexivity;
      rewrite SFeqb_refl by discriminate; reflexivity.
Qed.

(** Within one dtype, [<=] is total on the values that are not NaN, and
    transitive. *)
Lemma num_le_total (a b : num) :
  is_int a = is_int b -> is_nan a = false -> is_nan b = false ->
  num_le a b = false -> num_le b a = true.
Proof.
  destruct a as [m|f], b as [n|g]; simpl; try discriminate; intros _ Ha Hb H.
  - apply Z.leb_le. apply Z.leb_gt in H. lia.
  - apply SFleb_total; [apply is_nan_float, Ha|apply is_nan_float, Hb|exact H].
Qed.

Lemma num_le_trans (a b c : num) :
  is_int a = is_int b -> is_int b = is_int c ->
  num_le a b = true -> num_le b c = true -> num_le a c = true.
Proof.
  destruct a as [m|f], b as [n|g], c as [k|h]; simpl; try discriminate; intros _ _ H1 H2.
  - apply Z.leb_le. apply Z.leb_le in H1, H2. lia.
  - exact (SFleb_trans _ _ _ H1 H2).
Qed.

(** Within one dtype the equality of [unique] is an equivalence. *)
Lemma SFeqb_leb (a b : spec_float) :
  SFeqb a b = true <-> SFleb a b = true /\ SFleb b a = true.
Proof.
  unfold SFeqb, SFleb. rewrite (SFcompare_antisym a b).
  destruct (SFcompare a b) as [[ | | ]|]; simpl; split;
    try (intros [H1 H2]); try intros H; try discriminate; auto.
Qed.

Lemma SFeqb_trans (a b c : spec_float) :
  SFeqb a b = true -> SFeqb b c = true -> SFeqb a c = true.
Proof.
  rewrite !SFeqb_leb. intros [H1 H2] [H3 H4].
  split; [apply (SFleb_trans a b c)|apply (SFleb_trans c b a)]; assumption.
Qed.

Lemma SFeqb_nan_r (a : spec_float) : SFeqb a S754_nan = false.
Proof. destruct a as [[]|[]| |[] m e]; reflexivity. Qed.

Lemma num_same_float (f g : spec_float) :
  num_same (VFloat f) (VFloat g) = true ->
  (f = S754_nan /\ g = S754_nan) \/ SFeqb f g = true.
Proof.
  unfold num_same. simpl. destruct (SFeqb f g); [right; reflexivity|]. simpl.
  destruct f; try discriminate. destruct g; try discriminate.
  left; split; reflexivity.
Qed.

Lemma num_same_trans (a b c : num) :
  is_int a = is_int b -> is_int b = is_int c ->
  num_same a b = true -> num_same b c = true -> num_same a c = true.
Proof.
  destruct a as [m|f], b as [n|g], c as [k|h]; simpl; try discriminate; intros _ _.
  - unfold num_same. simpl. rewrite !orb_false_r, !Z.eqb_eq. congruence.
  - intros H1 H2.
    destruct (num_same_float g h H2) as [[Eg Eh]|E2];
      destruct (num_same_float f g H1) as [[Ef Eg']|E1].
    + subst. reflexivity.
    + subst g. rewrite SFeqb_nan_r in E1. discriminate E1.
    + subst g. discriminate E2.
    + unfold num_same. simpl. rewrite (SFeqb_trans f g h E1 E2). reflexivity.
Qed.

End NumOrder.

(** ** [Series.min()], [Series.max()], [Series.unique()], [range] *)

Section Reductions.

(** A reduction that skips NaN and otherwise keeps the better of two
    values returns its start value or a value of the column, and NaN only
    when it saw nothing but NaN. *)
Lemma fold_pick_in (f : num -> num -> num) (l : list num) (acc : num) :
  (forall a b, f a b = a \/ f a b = b) ->
  (forall a b, is_nan (f a b) = is_nan a && is_nan b) ->
  let r := fold_left f l acc in
  (r = acc \/ In r l) /\
  (is_nan r = true <-> is_nan acc = true /\ forall v, In v l -> is_nan v = true).
Proof.
  intros Hpick Hnan. revert acc. induction l as [|v l IH]; intros acc; simpl.
  - split; [left; reflexivity|]. split; [intros H; split; [exact H|contradiction]|tauto].
  - destruct (IH (f acc v)) as [Hin Hiff]. split.
    + destruct Hin as [E|Hin]; [|right; right; exact Hin].
      rewrite E. destruct (Hpick acc v) as [-> | ->]; [left|right; left]; reflexivity.
    + rewrite Hiff, Hnan, andb_true_iff. split.
      * intros [[Ha Hv] Hl]. split; [exact Ha|].
        intros w [<-|Hw]; [exact Hv|exact (Hl w Hw)].
      * intros [Ha Hl]. split; [split; [exact Ha|apply Hl; left; reflexivity]|].
        intros w Hw. apply Hl. right; exact Hw.
Qed.

(** With an order that is reflexive, total and transitive on the values of
    the column's dtype, the reduction returns a least value. *)
Lemma fold_pick_least
    (le : num -> num -> bool) (f : num -> num -> num) (k : bool) :
  (forall a b, f a b = if is_nan a then b else if is_nan b then a
                       else if le b a then b else a) ->
  (forall v, is_nan v = false -> le v v = true) ->
  (forall a b, is_int a = k -> is_int b = k -> is_nan a = false -> is_nan b = false ->
               le a b = false -> le b a = true) ->
  (forall a b c, is_int a = k -> is_int b = k -> is_int c = k ->
                 le a b = true -> le b c = true -> le a c = true) ->
  forall (l : list num) (acc : num),
    (forall v, In v l -> is_nan v = false -> is_int v = k) ->
    (is_nan acc = false -> is_int acc = k) ->
    is_nan (fold_left f l acc) = false ->
    is_int (fold_left f l acc) = k /\
    (is_nan acc = false -> le (fold_left f l acc) acc = true) /\
    (forall v, In v l -> is_nan v = false -> le (fold_left f l acc) v = true).
Proof.
  intros Hf Hrefl Htotal Htrans.
  induction l as [|v l IH]; intros acc Hl Hacc; simpl; intros Hr.
  - split; [apply Hacc, Hr|]. split; [intros _; apply Hrefl, Hr|contradiction].
  - assert (Hl' : forall w, In w l -> is_nan w = false -> is_int w = k).
    { intros w Hw. apply Hl. right; exact Hw. }
    assert (Hv : is_nan v = false -> is_int v = k).
    { apply Hl. left; reflexivity. }
    rewrite Hf in Hr |- *.
    destruct (is_nan acc) eqn:Ea.
    + destruct (IH v Hl' Hv Hr) as (Hk & Hrv & Hrl).
      split; [exact Hk|]. split; [discriminate|].
      intros w [<-|Hw]; [exact Hrv|exact (Hrl w Hw)].
    + assert (Ka : is_int acc = k) by (apply Hacc; reflexivity).
      destruct (is_nan v) eqn:Ev.
      * destruct (IH acc Hl' (fun _ => Ka) Hr) as (Hk & Hra & Hrl).
        split; [exact Hk|]. split; [intros _; apply Hra, Ea|].
        intros w [<-|Hw] Hw'; [rewrite Ev in Hw'; discriminate|exact (Hrl w Hw Hw')].
      * assert (Kv : is_int v = k) by (apply Hv; reflexivity).
        destruct (le v acc) eqn:Ele.
        -- destruct (IH v Hl' (fun _ => Kv) Hr) as (Hk & Hrv & Hrl).
           split; [exact Hk|]. split.
           ++ intros _. apply (Htrans _ v _); auto.
           ++ intros w [<-|Hw] Hw'; [auto|exact (Hrl w Hw Hw')].
        -- destruct (IH acc Hl' (fun _ => Ka) Hr) as (Hk & Hra & Hrl).
           split; [exact Hk|]. split; [intros _; apply Hra, Ea|].
           intros w [<-|Hw] Hw'; [|exact (Hrl w Hw Hw')].
           apply (Htrans _ acc _); auto.
Qed.

Lemma num_min2_pick (a b : num) : num_min2 a b = a \/ num_min2 a b = b.
Proof.
  unfold num_min2. destruct (is_nan a), (is_nan b), (num_le b a); auto.
Qed.

Lemma num_max2_pick (a b : num) : num_max2 a b = a \/ num_max2 a b = b.
Proof.
  unfold num_max2. destruct (is_nan a), (is_nan b), (num_le a b); auto.
Qed.

Lemma num_min2_nan (a b : num) : is_nan (num_min2 a b) = is_nan a && is_nan b.
Proof.
  unfold num_min2. destruct (is_nan a) eqn:Ea; [reflexivity|].
  destruct (is_nan b) eqn:Eb; [exact Ea|].
  destruct (num_le b a); assumption.
Qed.

Lemma num_max2_nan (a b : num) : is_nan (num_max2 a b) = is_nan a && is_nan b.
Proof.
  unfold num_max2. destruct (is_nan a) eqn:Ea; [reflexivity|].
  destruct (is_nan b) eqn:Eb; [exact Ea|].
  destruct (num_le a b); assumption.
Qed.

(** The minimum and the maximum are NaN exactly when every value is
    missing, and are values of the column otherwise. *)
Lemma series_min_in (l : list num) :
  (is_nan (series_min l) = true /\ forall v, In v l -> is_nan v = true) \/
  (is_nan (series_min l) = false /\ In (series_min l) l).
Proof.
  destruct (fold_pick_in num_min2 l (VFloat NaN) num_min2_pick num_min2_nan) as [Hin Hiff].
  fold (series_min l) in Hin, Hiff.
  destruct (is_nan (series_min l)) eqn:E.
  - left. split; [reflexivity|]. apply Hiff. reflexivity.
  - right. split; [reflexivity|]. destruct Hin as [Heq|Hin]; [|exact Hin].
    rewrite Heq in E. discriminate E.
Qed.

Lemma series_max_in (l : list num) :
  (is_nan (series_max l) = true /\ forall v, In v l -> is_nan v = true) \/
  (is_nan (series_max l) = false /\ In (series_max l) l).
Proof.
  destruct (fold_pick_in num_max2 l (VFloat NaN) num_max2_pick num_max2_nan) as [Hin Hiff].
  fold (series_max l) in Hin, Hiff.
  destruct (is_nan (series_max l)) eqn:E.
  - left. split; [reflexivity|]. apply Hiff. reflexivity.
  - right. split; [reflexivity|]. destruct Hin as [Heq|Hin]; [|exact Hin].
    rewrite Heq in E. discriminate E.
Qed.

Lemma one_dtype_kind (l : list num) :
  one_dtype l -> exists k, forall v, In v l -> is_nan v = false -> is_int v = k.
Proof.
  intros [H|H]; [exists true|exists false]; intros v Hv _; apply H, Hv.
Qed.

(** In a column of one dtype the minimum is at most, and the maximum at
    least, every value that is not missing. *)
Lemma series_min_le (l : list num) (v : num) :
  one_dtype l -> In v l -> is_nan v = false ->
  is_nan (series_min l) = false /\ num_le (series_min l) v = true.
Proof.
  intros Hd Hv Hnan. destruct (one_dtype_kind l Hd) as [k Hk].
  assert (Hr : is_nan (series_min l) = false).
  { destruct (series_min_in l) as [[_ Hall]|[H _]]; [|exact H].
    rewrite (Hall v Hv) in Hnan. discriminate Hnan. }
  split; [exact Hr|].
  refine (proj2 (proj2 (fold_pick_least num_le num_min2 k _ num_le_refl _ _
                          l (VFloat NaN) Hk _ Hr)) v Hv Hnan).
  - reflexivity.
  - intros a b Ha Hb. apply num_le_total. congruence.
  - intros a b c Ha Hb Hc. apply num_le_trans; congruence.
  - discriminate.
Qed.

Lemma series_max_ge (l : list num) (v : num) :
  one_dtype l -> In v l -> is_nan v = false ->
  is_nan (series_max l) = false /\ num_le v (series_max l) = true.
Proof.
  intros Hd Hv Hnan. destruct (one_dtype_kind l Hd) as [k Hk].
  assert (Hr : is_nan (series_max l) = false).
  { destruct (series_max_in l) as [[_ Hall]|[H _]]; [|exact H].
    rewrite (Hall v Hv) in Hnan. discriminate Hnan. }
  split; [exact Hr|].
  refine (proj2 (proj2 (fold_pick_least (fun a b => num_le b a) num_max2 k _ num_le_refl _ _
                          l (VFloat NaN) Hk _ Hr)) v Hv Hnan).
  - reflexivity.
  - intros a b Ha Hb Hna Hnb. apply num_le_total; congruence.
  - intros a b c Ha Hb Hc H1 H2. apply (num_le_trans c b a); congruence.
  - discriminate.
Qed.

(** [unique]: the values kept are values of the column in their order,
    each value of the column is matched by a value met before or kept,
    and a kept value matches none met or kept before it. *)
Lemma unique_from_subsequence (l seen : list num) :
  subsequence (unique_from seen l) l.
Proof.
  revert seen. induction l as [|v l IH]; intros seen; simpl.
  - constructor.
  - destruct (existsb (num_same v) seen);
      [apply subsequence_skip|apply subsequence_keep]; apply IH.
Qed.

Lemma unique_from_covers (l seen : list num) (v : num) :
  In v l ->
  exists u, (In u seen \/ In u (unique_from seen l)) /\ num_same v u = true.
Proof.
  revert seen. induction l as [|w l IH]; intros seen Hv; [contradiction|]. simpl.
  destruct (existsb (num_same w) seen) eqn:E.
  - destruct Hv as [<-|Hv]; [|apply IH, Hv].
    apply existsb_exists in E. destruct E as (u & Hu & Hsame).
    exists u. split; [left; exact Hu|exact Hsame].
  - destruct Hv as [<-|Hv].
    + exists w. split; [right; left; reflexivity|apply num_same_refl].
    + destruct (IH (w :: seen) Hv) as (u & [[Heq|Hu]|Hu] & Hsame);
        exists u; (split; [|exact Hsame]).
      * right; left; exact Heq.
      * left; exact Hu.
      * right; right; exact Hu.
Qed.

Lemma unique_from_distinct (l seen : list num) :
  ForallOrdPairs (fun earlier later => num_same later earlier = false)
                 (unique_from seen l) /\
  (forall u s, In u (unique_from seen l) -> In s seen -> num_same u s = false).
Proof.
  revert seen. induction l as [|w l IH]; intros seen; simpl.
  - split; [constructor|contradiction].
  - destruct (existsb (num_same w) seen) eqn:E; [apply IH|].
    destruct (IH (w :: seen)) as [Hpairs Hseen]. split.
    + constructor; [|exact Hpairs].
      apply Forall_forall. intros u Hu. apply (Hseen u w Hu). left; reflexivity.
    + intros u s [<-|Hu] Hs.
      * destruct (num_same w s) eqn:Es; [|reflexivity].
        assert (existsb (num_same w) seen = true)
          by (apply existsb_exists; exists s; split; assumption).
        congruence.
      * apply (Hseen u s Hu). right; exact Hs.
Qed.

(** The members of [range(start, stop, step)], for a positive step. *)
Lemma py_range_In (start stop step k : Z) :
  0 < step ->
  (In k (py_range start stop step) <->
   start <= k < stop /\ (k - start) mod step = 0).
Proof.
  intros Hstep. unfold py_range. rewrite in_map_iff. split.
  - intros (i & <- & Hi). apply in_seq in Hi.
    destruct (Z.ltb_spec start stop) as [Hlt|Hge]; [|simpl in Hi; lia].
    assert (Hq : Z.of_nat i <= (stop - start - 1) / step).
    { assert (0 <= (stop - start - 1) / step) by (apply Z.div_pos; lia). lia. }
    pose proof (Z.mul_div_le (stop - start - 1) step Hstep) as Hmul.
    split; [nia|].
    replace (start + step * Z.of_nat i - start) with (Z.of_nat i * step) by lia.
    apply Z_mod_mult.
  - intros [[Hlo Hhi] Hmod].
    exists (Z.to_nat ((k - start) / step)).
    assert (Hq : 0 <= (k - start) / step) by (apply Z.div_pos; lia).
    pose proof (Z_div_exact_full_2 (k - start) step ltac:(lia) Hmod) as Hex.
    split; [lia|]. apply in_seq.
    destruct (Z.ltb_spec start stop) as [Hlt|Hge]; [|lia].
    assert ((k - start) / step <= (stop - start - 1) / step)
      by (apply Z.div_le_mono; lia).
    lia.
Qed.

(** In a column of one dtype [unique] keeps the values that match no
    earlier value of the column. *)
Lemma one_dtype_same_kind (l : list num) (a b : num) :
  one_dtype l -> In a l -> In b l -> is_int a = is_int b.
Proof. intros [H|H] Ha Hb; rewrite (H a Ha), (H b Hb); reflexivity. Qed.

Lemma firstn_length_app {A : Type} (l1 l2 : list A) :
  firstn (List.length l1) (l1 ++ l2) = l1.
Proof.
  induction l1 as [|a l1 IH]; simpl; [destruct l2; reflexivity|].
  rewrite IH. reflexivity.
Qed.

Lemma unique_from_first (rest : list num) :
  forall pre seen : list num,
    one_dtype (pre ++ rest) ->
    (forall w, In w rest -> existsb (num_same w) seen = existsb (num_same w) pre) ->
    unique_from seen rest =
      map snd
          (filter (fun kv : nat * num =>
                     negb (existsb (num_same (snd kv)) (firstn (fst kv) (pre ++ rest))))
                  (combine (seq (List.length pre) (List.length rest)) rest)).
Proof.
  induction rest as [|v rest IH]; intros pre seen Hd Hinv; [reflexivity|].
  assert (Happ : (pre ++ v :: rest = (pre ++ [v]) ++ rest)%list)
    by (rewrite <- app_assoc; reflexivity).
  assert (Hlen : S (List.length pre) = List.length (pre ++ [v])%list)
    by (rewrite length_app; simpl; lia).
  cbn [unique_from List.length seq combine filter fst snd].
  rewrite firstn_length_app.
  pose proof (Hinv v (or_introl eq_refl)) as Hv. rewrite <- Hv.
  destruct (existsb (num_same v) seen) eqn:E; cbn [negb map snd].
  - rewrite Happ, Hlen. apply IH.
    + rewrite <- Happ. exact Hd.
    + intros w Hw. rewrite (Hinv w (or_intror Hw)), existsb_app. simpl.
      rewrite orb_false_r.
      destruct (num_same w v) eqn:Ewv; [|rewrite orb_false_r; reflexivity].
      rewrite orb_true_r. symmetry in Hv.
      apply existsb_exists in Hv. destruct Hv as (u & Hu & Hvu).
      apply existsb_exists. exists u. split; [exact Hu|].
      apply (num_same_trans w v u); try assumption;
        apply (one_dtype_same_kind _ _ _ Hd); apply in_or_app;
          first [left; exact Hu|right; left; reflexivity|right; right; exact Hw].
  - f_equal. rewrite Happ, Hlen. apply IH.
    + rewrite <- Happ. exact Hd.
    + intros w Hw. simpl. rewrite (Hinv w (or_intror Hw)), existsb_app. simpl.
      rewrite orb_false_r. apply orb_comm.
Qed.

Lemma unique_first_appearances (l : list num) :
  one_dtype l -> unique l = first_appearances l.
Proof.
  intros Hd. apply (unique_from_first l [] [] Hd). reflexivity.
Qed.

End Reductions.

(** ** The selectors of the layout *)

Section Selectors.

Variable float_str : spec_float -> string.
Variable series_mean : list num -> num.

Local Abbreviation layout_of := (app_layout float_str series_mean).
Local Abbreviation years_of := (map (fun r : Row => Year r)).
Local Abbreviation magnitudes_of := (map (fun r : Row => Field_Magnitude_Avg r)).

Lemma py_int_finite (v : num) :
  is_finite v = true <-> exists n, py_int v = inr n.
Proof.
  destruct v as [n|[s|s| |s m e]]; simpl; split; intros H;
    try reflexivity; try discriminate; try (eexists; reflexivity);
    destruct H as [n H]; discriminate H.
Qed.

(** What a layout that was built is made of. *)
Lemma app_layout_inr (storm_data : DataFrame) (app : Layout) :
  layout_of storm_data = inr app ->
  exists lo hi : Z,
    py_int (series_min (magnitudes_of storm_data)) = inr lo /\
    py_int (series_max (magnitudes_of storm_data)) = inr hi /\
    heading app = "3D Geomagnetic Storm Data for May 2024" /\
    options (year_dropdown app) =
      map (fun year => mkOption (astype_str float_str year) year)
          (unique (years_of storm_data)) /\
    dropdown_value (year_dropdown app) = series_min (years_of storm_data) /\
    slider_min (magnitude_slider app) = series_min (magnitudes_of storm_data) /\
    slider_max (magnitude_slider app) = series_max (magnitudes_of storm_data) /\
    slider_value (magnitude_slider app) = series_mean (magnitudes_of storm_data) /\
    marks (magnitude_slider app) =
      map (fun i => (i, str_int i)) (py_range lo (hi + 1) 5).
Proof.
  unfold app_layout.
  destruct (py_int (series_min _)) as [e|lo]; [discriminate|].
  destruct (py_int (series_max _)) as [e|hi]; [discriminate|].
  intros [= <-]. exists lo, hi. repeat split; reflexivity.
Qed.

(** A layout is built only for a dataset with a row. *)
Lemma app_layout_nonempty (storm_data : DataFrame) (app : Layout) :
  layout_of storm_data = inr app -> storm_data <> [].
Proof. intros H ->. discriminate H. Qed.

(** Each year of the column is matched by an entry of the selector. *)
Lemma option_for_year (years : list num) (v : num) :
  In v years ->
  exists o, In o (map (fun year => mkOption (astype_str float_str year) year)
                      (unique years)) /\
            num_same v (option_value o) = true.
Proof.
  intros Hv.
  destruct (unique_from_covers years [] v Hv) as (u & [[]|Hu] & Hsame).
  exists (mkOption (astype_str float_str u) u). split; [|exact Hsame].
  apply in_map_iff. exists u. split; [reflexivity|exact Hu].
Qed.

(** X1.  The year selector lists each year of the dataset once, in order
    of first appearance, labelled with its text: in a Year column of one
    dtype the listed values are the values of the column that match no
    earlier value of the column, in the order of the column.  Whatever
    the column, the listed values are values of the column in its order,
    every year of the dataset matches a listed value, no listed value
    matches an earlier one, and each label is the text of its value. *)
Theorem year_dropdown_options (storm_data : DataFrame) (app : Layout)
    (Happ : layout_of storm_data = inr app) :
  (one_dtype (years_of storm_data) ->
   map option_value (options (year_dropdown app)) =
     first_appearances (years_of storm_data)) /\
  subsequence (map option_value (options (year_dropdown app))) (years_of storm_data) /\
  (forall r : Row, In r storm_data ->
     exists o, In o (options (year_dropdown app)) /\
               num_same (Year r) (option_value o) = true) /\
  ForallOrdPairs (fun earlier later =>
                    num_same (option_value later) (option_value earlier) = false)
                 (options (year_dropdown app)) /\
  (forall o, In o (options (year_dropdown app)) ->
     option_label o = astype_str float_str (option_value o)).
Proof.
  destruct (app_layout_inr _ _ Happ) as (lo & hi & _ & _ & _ & Hopt & _).
  rewrite Hopt. clear Hopt. split; [|split; [|split; [|split]]].
  - intros Hd. rewrite map_map. simpl. rewrite map_id.
    apply unique_first_appearances, Hd.
  - rewrite map_map. simpl. rewrite map_id. apply unique_from_subsequence.
  - intros r Hr. apply option_for_year.
    apply in_map_iff. exists r. split; [reflexivity|exact Hr].
  - pose proof (proj1 (unique_from_distinct (years_of storm_data) [])) as Hd.
    fold (unique (years_of storm_data)) in Hd.
    induction Hd as [|u l Hu Hl IH]; simpl; constructor; [|exact IH].
    apply Forall_forall. intros o Ho. apply in_map_iff in Ho.
    destruct Ho as (w & <- & Hw). simpl.
    rewrite Forall_forall in Hu. apply Hu, Hw.
  - intros o Ho. apply in_map_iff in Ho. destruct Ho as (u & <- & _). reflexivity.
Qed.

(** X2.  The year selected at start is one of the listed years. *)
Theorem year_dropdown_default (storm_data : DataFrame) (app : Layout)
    (Happ : layout_of storm_data = inr app) :
  exists o, In o (options (year_dropdown app)) /\
            num_same (dropdown_value (year_dropdown app)) (option_value o) = true.
Proof.
  pose proof (app_layout_nonempty _ _ Happ) as Hne.
  destruct (app_layout_inr _ _ Happ) as (lo & hi & _ & _ & _ & Hopt & Hval & _).
  rewrite Hopt, Hval.
  destruct (series_min_in (years_of storm_data)) as [[Hnan Hall]|[_ Hin]].
  - destruct storm_data as [|r rest]; [contradiction|].
    destruct (option_for_year (years_of (r :: rest)) (Year r) (or_introl eq_refl))
      as (o & Ho & Hsame).
    exists o. split; [exact Ho|].
    pose proof (Hall (Year r) (or_introl eq_refl)) as Hr.
    unfold num_same in *. rewrite Hnan. rewrite Hr in Hsame.
    destruct (Year r) as [n|[s|s| |s m e]]; try discriminate Hr.
    simpl in Hsame. rewrite Hsame. apply orb_true_r.
  - apply option_for_year, Hin.
Qed.

Lemma py_range_sorted (start step : Z) (n first : nat) :
  0 < step ->
  StronglySorted Z.lt (map (fun i => start + step * Z.of_nat i) (seq first n)).
Proof.
  intros Hstep. revert first. induction n as [|n IH]; intros first; simpl.
  - constructor.
  - constructor; [apply IH|].
    apply Forall_forall. intros k Hk. apply in_map_iff in Hk.
    destruct Hk as (i & <- & Hi). apply in_seq in Hi. nia.
Qed.

(** X3.  The marks of the slider are the integers from [int(min)] to [int(max)]
    in steps of 5, each labelled with its decimal text, in increasing
    order. *)
Theorem slider_marks (storm_data : DataFrame) (app : Layout)
    (Happ : layout_of storm_data = inr app) :
  exists lo hi : Z,
    py_int (slider_min (magnitude_slider app)) = inr lo /\
    py_int (slider_max (magnitude_slider app)) = inr hi /\
    (forall (k : Z) (s : string),
       In (k, s) (marks (magnitude_slider app)) <->
       lo <= k <= hi /\ (k - lo) mod 5 = 0 /\ s = str_int k) /\
    StronglySorted Z.lt (map fst (marks (magnitude_slider app))).
Proof.
  destruct (app_layout_inr _ _ Happ)
    as (lo & hi & Hlo & Hhi & _ & _ & _ & Hmin & Hmax & _ & Hmarks).
  exists lo, hi. rewrite Hmin, Hmax, Hmarks.
  split; [exact Hlo|]. split; [exact Hhi|]. split.
  - intros k s. rewrite in_map_iff. split.
    + intros (i & [= <- <-] & Hi). apply py_range_In in Hi; [|lia].
      split; [lia|]. split; [apply Hi|reflexivity].
    + intros (Hk & Hmod & ->). exists k. split; [reflexivity|].
      apply py_range_In; [lia|]. split; [lia|exact Hmod].
  - rewrite map_map. simpl. rewrite map_id. apply py_range_sorted. lia.
Qed.

Lemma num_le_nan_l (v b : num) : is_nan v = true -> num_le v b = false.
Proof.
  destruct v as [n|[s|s| |s m e]]; try discriminate. intros _.
  destruct b; reflexivity.
Qed.

(** In a column of one dtype every measured magnitude lies between the
    minimum and the maximum. *)
Lemma magnitude_within_range (storm_data : DataFrame) (r : Row) :
  one_dtype (magnitudes_of storm_data) ->
  In r storm_data -> is_nan (Field_Magnitude_Avg r) = false ->
  num_le (series_min (magnitudes_of storm_data)) (Field_Magnitude_Avg r) = true /\
  num_le (Field_Magnitude_Avg r) (series_max (magnitudes_of storm_data)) = true.
Proof.
  intros Hdtype Hr Hnan.
  assert (Hin : In (Field_Magnitude_Avg r) (magnitudes_of storm_data)).
  { apply in_map_iff. exists r. split; [reflexivity|exact Hr]. }
  split.
  - apply (series_min_le _ _ Hdtype Hin Hnan).
  - apply (series_max_ge _ _ Hdtype Hin Hnan).
Qed.

(** X4.  In a column of one dtype the range of the slider holds every measured
    magnitude. *)
Theorem slider_range_covers (storm_data : DataFrame) (app : Layout)
    (Happ : layout_of storm_data = inr app)
    (Hdtype : one_dtype (magnitudes_of storm_data)) :
  forall r : Row, In r storm_data -> is_nan (Field_Magnitude_Avg r) = false ->
    num_le (slider_min (magnitude_slider app)) (Field_Magnitude_Avg r) = true /\
    num_le (Field_Magnitude_Avg r) (slider_max (magnitude_slider app)) = true.
Proof.
  destruct (app_layout_inr _ _ Happ) as (lo & hi & _ & _ & _ & _ & _ & Hmin & Hmax & _).
  rewrite Hmin, Hmax. intros r Hr Hnan.
  apply (magnitude_within_range storm_data r Hdtype Hr Hnan).
Qed.

(** X5.  With the slider at its maximum the graph shows every record of the
    selected year whose magnitude was measured. *)
Theorem slider_at_max_shows_year (storm_data : DataFrame) (app : Layout)
    (selected_year : num)
    (Happ : layout_of storm_data = inr app)
    (Hdtype : one_dtype (magnitudes_of storm_data)) :
  filtered_data storm_data selected_year (slider_max (magnitude_slider app)) =
    filter (fun r : Row => num_eq (Year r) selected_year &&
                           negb (is_nan (Field_Magnitude_Avg r))) storm_data.
Proof.
  destruct (app_layout_inr _ _ Happ) as (lo & hi & _ & _ & _ & _ & _ & _ & Hmax & _).
  rewrite Hmax.
  unfold filtered_data. apply filter_ext_in. intros r Hr. unfold mask. f_equal.
  destruct (is_nan (Field_Magnitude_Avg r)) eqn:E; simpl.
  - apply num_le_nan_l, E.
  - apply (magnitude_within_range storm_data r Hdtype Hr E).
Qed.

(** X6.  Every record with a year and a measured magnitude can be reached: one
    of the listed years, with the slider at its maximum, shows it. *)
Theorem every_measured_record_reachable (storm_data : DataFrame) (app : Layout)
    (Happ : layout_of storm_data = inr app)
    (Hdtype : one_dtype (magnitudes_of storm_data)) :
  forall r : Row, In r storm_data ->
    is_nan (Year r) = false -> is_nan (Field_Magnitude_Avg r) = false ->
    exists o, In o (options (year_dropdown app)) /\
              In r (filtered_data storm_data (option_value o)
                                  (slider_max (magnitude_slider app))).
Proof.
  intros r Hr Hyear Hmag.
  destruct (app_layout_inr _ _ Happ) as (lo & hi & _ & _ & _ & Hopt & _ & _ & Hmax & _).
  rewrite Hopt, Hmax.
  destruct (option_for_year (years_of storm_data) (Year r)) as (o & Ho & Hsame).
  { apply in_map_iff. exists r. split; [reflexivity|exact Hr]. }
  exists o. split; [exact Ho|].
  unfold filtered_data. apply filter_In. split; [exact Hr|].
  apply mask_true. split.
  - unfold num_same in Hsame. rewrite Hyear in Hsame. simpl in Hsame.
    rewrite orb_false_r in Hsame. exact Hsame.
  - apply (magnitude_within_range storm_data r Hdtype Hr Hmag).
Qed.

(** X7.  The layout cannot be built when every magnitude is missing: [int]
    raises ValueError on the NaN minimum.  It is built when the dataset has
    a row and every magnitude is a finite number. *)
Theorem app_layout_errors (storm_data : DataFrame) :
  ((forall r : Row, In r storm_data -> is_nan (Field_Magnitude_Avg r) = true) ->
   layout_of storm_data =
     inl (mkException "ValueError" "cannot convert float NaN to integer")) /\
  (storm_data <> [] ->
   (forall r : Row, In r storm_data -> is_finite (Field_Magnitude_Avg r) = true) ->
   exists app, layout_of storm_data = inr app) /\
  (forall app, layout_of storm_data = inr app ->
     storm_data <> [] /\
     is_finite (series_min (magnitudes_of storm_data)) = true /\
     is_finite (series_max (magnitudes_of storm_data)) = true).
Proof.
  split; [|split].
  - intros Hall. unfold app_layout.
    destruct (series_min_in (magnitudes_of storm_data)) as [[Hnan _]|[_ Hin]].
    + destruct (series_min _) as [n|[s|s| |s m e]]; try discriminate Hnan. reflexivity.
    + apply in_map_iff in Hin. destruct Hin as (r & Hr & Hin).
      pose proof (Hall r Hin) as Hnan. rewrite Hr in Hnan.
      destruct (series_min _) as [n|[s|s| |s m e]]; try discriminate Hnan. reflexivity.
  - intros Hne Hall.
    assert (Hfin : forall v, In v (magnitudes_of storm_data) -> is_finite v = true).
    { intros v Hv. apply in_map_iff in Hv. destruct Hv as (r & <- & Hr). apply Hall, Hr. }
    assert (Hsome : exists v, In v (magnitudes_of storm_data)).
    { destruct storm_data as [|r rest]; [contradiction|].
      eexists. left. reflexivity. }
    destruct Hsome as [v0 Hv0].
    assert (Hnn : forall v, is_finite v = true -> is_nan v = false).
    { intros [n|[s|s| |s m e]]; try reflexivity; discriminate. }
    assert (Hmin : is_finite (series_min (magnitudes_of storm_data)) = true).
    { destruct (series_min_in (magnitudes_of storm_data)) as [[_ Hnan]|[_ Hin]].
      - pose proof (Hnan v0 Hv0) as Hc. specialize (Hfin v0 Hv0).
        exfalso. destruct v0 as [n|[s|s| |s m e]]; discriminate.
      - apply Hfin, Hin. }
    assert (Hmax : is_finite (series_max (magnitudes_of storm_data)) = true).
    { destruct (series_max_in (magnitudes_of storm_data)) as [[_ Hnan]|[_ Hin]].
      - pose proof (Hnan v0 Hv0) as Hc. specialize (Hfin v0 Hv0).
        exfalso. destruct v0 as [n|[s|s| |s m e]]; discriminate.
      - apply Hfin, Hin. }
    apply py_int_finite in Hmin, Hmax.
    destruct Hmin as [lo Hlo], Hmax as [hi Hhi].
    unfold app_layout. rewrite Hlo, Hhi. eexists. reflexivity.
  - intros app Happ. split; [apply (app_layout_nonempty _ _ Happ)|].
    destruct (app_layout_inr _ _ Happ) as (lo & hi & Hlo & Hhi & _).
    split; apply py_int_finite; eexists; eassumption.
Qed.

End Selectors.

(** X8.  Raising the magnitude bound only adds points: when the magnitudes and
    the two bounds have one dtype and the first bound is at most the
    second, what the first shows is a subsequence of what the second
    shows. *)
Theorem filtered_data_monotone
    (storm_data : DataFrame) (selected_year bound1 bound2 : num)
    (Hdtype : forall r : Row, In r storm_data ->
                is_int (Field_Magnitude_Avg r) = is_int bound1)
    (Hbounds : is_int bound1 = is_int bound2)
    (Hle : num_le bound1 bound2 = true) :
  subsequence (filtered_data storm_data selected_year bound1)
              (filtered_data storm_data selected_year bound2).
Proof.
  unfold filtered_data. apply subsequence_filter_max.
  - apply subsequence_filter.
  - apply Forall_forall. intros r Hr. apply filter_In in Hr. destruct Hr as [Hin Hmask].
    apply mask_true in Hmask. apply mask_true. split; [apply Hmask|].
    apply (num_le_trans _ bound1 _); [apply Hdtype, Hin|exact Hbounds|apply Hmask|exact Hle].
Qed.

(** ** Valid rows: the round trip of dates, the order of timestamps *)

Section ValidRows.

Variable float_str : spec_float -> string.

Local Abbreviation assign := (assign_DateTime float_str).

Lemma month_day_round_trip (lens : list Z) (n : nat) (j : Z) :
  forallb (fun z => fold_right Z.add 0
                      (firstn (Z.to_nat (fst (month_day lens 1 z) - 1)) lens)
                    + snd (month_day lens 1 z) =? z)
          (Z_range 1 n) = true ->
  1 <= j < 1 + Z.of_nat n ->
  fold_right Z.add 0 (firstn (Z.to_nat (fst (month_day lens 1 j) - 1)) lens)
  + snd (month_day lens 1 j) = j.
Proof.
  intros Hall Hj. pose proof (Z_range_forall _ 1 n Hall j Hj) as E.
  cbv beta in E. apply Z.eqb_eq in E. exact E.
Qed.

(** Consecutive days of a year have increasing (month, day). *)
Lemma month_day_increasing (lens : list Z) (n : nat) :
  forallb (fun z => fst (month_day lens 1 z) * 32 + snd (month_day lens 1 z)
                    <? fst (month_day lens 1 (z + 1)) * 32
                       + snd (month_day lens 1 (z + 1)))
          (Z_range 1 n) = true ->
  forall j1 j2, 1 <= j1 -> j1 < j2 -> j2 <= 1 + Z.of_nat n ->
    fst (month_day lens 1 j1) * 32 + snd (month_day lens 1 j1)
    < fst (month_day lens 1 j2) * 32 + snd (month_day lens 1 j2).
Proof.
  intros Hall j1 j2 H1 Hlt Hn.
  assert (Hstep : forall z, 1 <= z < 1 + Z.of_nat n ->
            fst (month_day lens 1 z) * 32 + snd (month_day lens 1 z)
            < fst (month_day lens 1 (z + 1)) * 32 + snd (month_day lens 1 (z + 1))).
  { intros z Hz. pose proof (Z_range_forall _ 1 n Hall z Hz) as E.
    cbv beta in E. apply Z.ltb_lt in E. exact E. }
  replace j2 with (j1 + 1 + Z.of_nat (Z.to_nat (j2 - j1 - 1))) in * by lia.
  induction (Z.to_nat (j2 - j1 - 1)) as [|k IH].
  - replace (j1 + 1 + Z.of_nat 0) with (j1 + 1) by lia. apply Hstep. lia.
  - eapply Z.lt_trans; [apply IH; lia|].
    replace (j1 + 1 + Z.of_nat (S k)) with (j1 + 1 + Z.of_nat k + 1) by lia.
    apply Hstep. lia.
Qed.

(** A day that exists in its year is a date of that year whose number in
    the year is the day. *)
Lemma date_of_julian_valid (y j : Z) :
  1 <= j <= days_in_year y ->
  date_of_julian y j =
    (y, fst (month_day (month_lengths y) 1 j), snd (month_day (month_lengths y) 1 j)) /\
  day_of_year y (fst (month_day (month_lengths y) 1 j))
                (snd (month_day (month_lengths y) 1 j)) = j.
Proof.
  intros H. unfold date_of_julian, day_of_year.
  destruct (Z.leb_spec j (days_in_year y)) as [_|Hgt]; [|lia].
  split; [destruct (month_day (month_lengths y) 1 j); reflexivity|].
  unfold days_in_year in H. unfold month_lengths.
  destruct (is_leap y).
  - apply (month_day_round_trip _ (Z.to_nat 366)); [vm_compute; reflexivity|lia].
  - apply (month_day_round_trip _ (Z.to_nat 365)); [vm_compute; reflexivity|lia].
Qed.

Lemma month_day_order (y j1 j2 : Z) :
  1 <= j1 -> j1 < j2 -> j2 <= days_in_year y ->
  fst (month_day (month_lengths y) 1 j1) * 32 + snd (month_day (month_lengths y) 1 j1)
  < fst (month_day (month_lengths y) 1 j2) * 32 + snd (month_day (month_lengths y) 1 j2).
Proof.
  unfold days_in_year, month_lengths. intros H1 Hlt H2.
  destruct (is_leap y).
  - apply (month_day_increasing _ (Z.to_nat 365)); [vm_compute; reflexivity|lia|lia|lia].
  - apply (month_day_increasing _ (Z.to_nat 364)); [vm_compute; reflexivity|lia|lia|lia].
Qed.

Lemma valid_ordinal_spec (y j h m : Z) :
  valid_ordinal y j h m = true <->
  1 <= j <= days_in_year y /\ 0 <= h <= 23 /\ 0 <= m <= 59.
Proof.
  unfold valid_ordinal. rewrite !andb_true_iff, !Z.leb_le. lia.
Qed.

(** The timestamp of a valid ordinal date. *)
Lemma timestamp_of_valid (y j h m : Z) :
  valid_ordinal y j h m = true ->
  year (timestamp_of y j h m) = y /\
  hour (timestamp_of y j h m) = h /\ minute (timestamp_of y j h m) = m /\
  1 <= month (timestamp_of y j h m) <= 12 /\
  1 <= day (timestamp_of y j h m) <= 31 /\
  day_of_year y (month (timestamp_of y j h m)) (day (timestamp_of y j h m)) = j /\
  month (timestamp_of y j h m) * 32 + day (timestamp_of y j h m) =
    fst (month_day (month_lengths y) 1 j) * 32 + snd (month_day (month_lengths y) 1 j).
Proof.
  intros Hv. apply valid_ordinal_spec in Hv. destruct Hv as (Hj & Hh & Hm).
  destruct (date_of_julian_valid y j Hj) as [Hd Hdoy].
  assert (Hj' : 1 <= j <= 366) by (unfold days_in_year in Hj; destruct (is_leap y); lia).
  pose proof (date_of_julian_spec y j Hj') as Hb.
  unfold timestamp_of. rewrite Hd in Hb |- *. cbn [year month day hour minute].
  destruct Hb as (Hmo & Hdd & _).
  split; [reflexivity|]. split; [reflexivity|]. split; [reflexivity|].
  split; [exact Hmo|]. split; [exact Hdd|]. split; [exact Hdoy|reflexivity].
Qed.

(** A row of integer cells with a valid ordinal date within the nanosecond
    range gets the timestamp of that date. *)
Lemma valid_row_DateTime (r : RawRow) (y j h m : Z) :
  Year r = VInt y -> Day r = VInt j -> Hour r = VInt h -> Minute r = VInt m ->
  valid_ordinal y j h m = true ->
  in_ns_bounds (timestamp_of y j h m) = true ->
  DateTime (assign r) = Some (timestamp_of y j h m).
Proof.
  intros Ey Ej Eh Em Hv Hb.
  destruct (timestamp_of_valid y j h m Hv) as (Hy & Hh & Hm & Hmo & Hd & _).
  pose proof (in_ns_bounds_year _ Hmo Hd ltac:(apply valid_ordinal_spec in Hv; lia)
                ltac:(apply valid_ordinal_spec in Hv; lia) Hb) as Hyear.
  rewrite Hy in Hyear.
  assert (Hacc : accepted_ordinal j h m = true).
  { apply valid_ordinal_spec in Hv. unfold accepted_ordinal.
    rewrite !andb_true_iff, !Z.leb_le.
    unfold days_in_year in Hv. destruct (is_leap y); lia. }
  simpl. unfold Pandas.to_datetime.
  rewrite (match_format_composite_intro float_str r y j h m Ey Ej Eh Em
             ltac:(lia) Hacc).
  unfold timestamp_of in Hb |- *.
  destruct (date_of_julian y j) as [[y' mo] d]. rewrite Hb. reflexivity.
Qed.

(** A later valid (year, day, hour, minute) has a later timestamp. *)
Lemma timestamp_of_increasing (y1 j1 h1 m1 y2 j2 h2 m2 : Z) :
  valid_ordinal y1 j1 h1 m1 = true -> valid_ordinal y2 j2 h2 m2 = true ->
  ordinal_key y1 j1 h1 m1 < ordinal_key y2 j2 h2 m2 ->
  minute_key (timestamp_of y1 j1 h1 m1) < minute_key (timestamp_of y2 j2 h2 m2).
Proof.
  intros Hv1 Hv2 Hlt.
  destruct (timestamp_of_valid y1 j1 h1 m1 Hv1) as (Ey1 & Eh1 & Em1 & Hmo1 & Hd1 & _ & K1).
  destruct (timestamp_of_valid y2 j2 h2 m2 Hv2) as (Ey2 & Eh2 & Em2 & Hmo2 & Hd2 & _ & K2).
  apply valid_ordinal_spec in Hv1, Hv2.
  assert (Hdy1 : days_in_year y1 <= 366) by (unfold days_in_year; destruct (is_leap y1); lia).
  assert (Hdy2 : days_in_year y2 <= 366) by (unfold days_in_year; destruct (is_leap y2); lia).
  unfold minute_key. rewrite Ey1, Eh1, Em1, Ey2, Eh2, Em2.
  unfold ordinal_key in Hlt.
  destruct (Z.lt_trichotomy y1 y2) as [Hy|[Hy|Hy]]; [lia| |lia].
  subst y2.
  destruct (Z.lt_trichotomy j1 j2) as [Hj|[Hj|Hj]]; [| |lia].
  - pose proof (month_day_order y1 j1 j2 ltac:(lia) Hj ltac:(lia)) as Hk. lia.
  - subst j2. lia.
Qed.

(** A date of the calendar is the date of its number in the year. *)
Lemma month_day_of_date (lens : list Z) (mo d : Z) :
  forallb (fun mo =>
             forallb (fun d =>
                        implb (d <=? nth (Z.to_nat (mo - 1)) lens 0)
                              (let '(mo', d') :=
                                 month_day lens 1
                                   (fold_right Z.add 0 (firstn (Z.to_nat (mo - 1)) lens) + d) in
                               (mo' =? mo) && (d' =? d)))
                     (Z_range 1 31) &&
             (nth (Z.to_nat (mo - 1)) lens 0 <=? 31))
          (Z_range 1 12) = true ->
  1 <= mo <= 12 -> 1 <= d <= nth (Z.to_nat (mo - 1)) lens 0 ->
  month_day lens 1 (fold_right Z.add 0 (firstn (Z.to_nat (mo - 1)) lens) + d) = (mo, d).
Proof.
  intros Hall Hmo Hd.
  pose proof (Z_range_forall _ 1 12 Hall mo ltac:(lia)) as E. cbv beta in E.
  apply andb_true_iff in E. destruct E as [E H31]. apply Z.leb_le in H31.
  pose proof (Z_range_forall _ 1 31 E d ltac:(lia)) as E'. cbv beta in E'.
  destruct (Z.leb_spec d (nth (Z.to_nat (mo - 1)) lens 0)) as [_|Hgt]; [|lia].
  simpl in E'.
  destruct (month_day lens 1 _) as [mo' d'].
  apply andb_true_iff in E'. destruct E' as [E1 E2].
  apply Z.eqb_eq in E1, E2. subst. reflexivity.
Qed.

Lemma date_of_day_of_year (y mo d : Z) :
  1 <= mo <= 12 -> 1 <= d <= days_in_month y mo ->
  month_day (month_lengths y) 1 (day_of_year y mo d) = (mo, d).
Proof.
  unfold days_in_month, day_of_year, month_lengths. intros Hmo Hd.
  destruct (is_leap y);
    apply month_day_of_date; try assumption; vm_compute; reflexivity.
Qed.

(** The day of a date of the calendar is a day of its month. *)
Lemma month_day_in_month (lens : list Z) (n : nat) (j : Z) :
  forallb (fun z => snd (month_day lens 1 z)
                    <=? nth (Z.to_nat (fst (month_day lens 1 z) - 1)) lens 0)
          (Z_range 1 n) = true ->
  1 <= j < 1 + Z.of_nat n ->
  snd (month_day lens 1 j) <= nth (Z.to_nat (fst (month_day lens 1 j) - 1)) lens 0.
Proof.
  intros Hall Hj. pose proof (Z_range_forall _ 1 n Hall j Hj) as E.
  cbv beta in E. apply Z.leb_le in E. exact E.
Qed.

Lemma date_of_julian_in_month (y j : Z) :
  1 <= j <= days_in_year y ->
  snd (month_day (month_lengths y) 1 j)
  <= days_in_month y (fst (month_day (month_lengths y) 1 j)).
Proof.
  unfold days_in_year, days_in_month, month_lengths. intros H.
  destruct (is_leap y).
  - apply (month_day_in_month _ (Z.to_nat 366)); [vm_compute; reflexivity|lia].
  - apply (month_day_in_month _ (Z.to_nat 365)); [vm_compute; reflexivity|lia].
Qed.

(** X9.  The parser keeps a valid row's date: the DateTime of a row of
    integer cells with a valid ordinal date within the nanosecond range
    is not null, has the row's year, hour and minute, and its month and
    day are the date of the calendar of that year (a day of its month)
    whose number in the year is the row's day; no other date of that year
    has this number. *)
Theorem valid_row_round_trip (r : RawRow) (y j h m : Z)
    (Hyear : Year r = VInt y) (Hday : Day r = VInt j)
    (Hhour : Hour r = VInt h) (Hminute : Minute r = VInt m)
    (Hvalid : valid_ordinal y j h m = true)
    (Hbounds : in_ns_bounds (timestamp_of y j h m) = true) :
  exists t : datetime,
    DateTime (assign r) = Some t /\
    year t = y /\ hour t = h /\ minute t = m /\
    1 <= month t <= 12 /\ 1 <= day t <= days_in_month y (month t) /\
    day_of_year y (month t) (day t) = j /\
    (forall mo d : Z,
       1 <= mo <= 12 -> 1 <= d <= days_in_month y mo -> day_of_year y mo d = j ->
       mo = month t /\ d = day t).
Proof.
  exists (timestamp_of y j h m).
  split; [apply valid_row_DateTime; assumption|].
  destruct (timestamp_of_valid y j h m Hvalid) as (H1 & H2 & H3 & H4 & H5 & H6 & _).
  pose proof Hvalid as Hj. apply valid_ordinal_spec in Hj. destruct Hj as (Hj & _).
  destruct (date_of_julian_valid y j Hj) as [Hd _].
  pose proof (date_of_julian_in_month y j Hj) as Hin.
  assert (Hmonth : month (timestamp_of y j h m) = fst (month_day (month_lengths y) 1 j) /\
                   day (timestamp_of y j h m) = snd (month_day (month_lengths y) 1 j)).
  { unfold timestamp_of. rewrite Hd. split; reflexivity. }
  destruct Hmonth as [Em Ed].
  split; [exact H1|]. split; [exact H2|]. split; [exact H3|]. split; [exact H4|].
  split; [rewrite Em, Ed; split; [rewrite <- Ed; lia|exact Hin]|].
  split; [exact H6|].
  intros mo d Hmo Hdd Hdoy. rewrite Em, Ed, <- Hdoy.
  rewrite (date_of_day_of_year y mo d Hmo Hdd). split; reflexivity.
Qed.

(** X10.  The parser keeps the order of valid rows: of two rows with valid
    ordinal dates within the nanosecond range, the one with the earlier
    (year, day, hour, minute) has the earlier DateTime, and the two have
    the same DateTime only when the four fields agree. *)
Theorem valid_rows_chronological (r1 r2 : RawRow) (y1 j1 h1 m1 y2 j2 h2 m2 : Z)
    (Hr1 : Year r1 = VInt y1 /\ Day r1 = VInt j1 /\ Hour r1 = VInt h1 /\ Minute r1 = VInt m1)
    (Hr2 : Year r2 = VInt y2 /\ Day r2 = VInt j2 /\ Hour r2 = VInt h2 /\ Minute r2 = VInt m2)
    (Hvalid1 : valid_ordinal y1 j1 h1 m1 = true)
    (Hvalid2 : valid_ordinal y2 j2 h2 m2 = true)
    (Hbounds1 : in_ns_bounds (timestamp_of y1 j1 h1 m1) = true)
    (Hbounds2 : in_ns_bounds (timestamp_of y2 j2 h2 m2) = true) :
  exists t1 t2 : datetime,
    DateTime (assign r1) = Some t1 /\ DateTime (assign r2) = Some t2 /\
    (ordinal_key y1 j1 h1 m1 < ordinal_key y2 j2 h2 m2 <->
     minute_key t1 < minute_key t2) /\
    (t1 = t2 <-> (y1, j1, h1, m1) = (y2, j2, h2, m2)).
Proof.
  destruct Hr1 as (A1 & B1 & C1 & D1), Hr2 as (A2 & B2 & C2 & D2).
  exists (timestamp_of y1 j1 h1 m1), (timestamp_of y2 j2 h2 m2).
  split; [apply valid_row_DateTime; assumption|].
  split; [apply valid_row_DateTime; assumption|].
  pose proof (timestamp_of_increasing _ _ _ _ _ _ _ _ Hvalid1 Hvalid2) as Up.
  pose proof (timestamp_of_increasing _ _ _ _ _ _ _ _ Hvalid2 Hvalid1) as Down.
  assert (Hsame : ordinal_key y1 j1 h1 m1 = ordinal_key y2 j2 h2 m2 ->
                  (y1, j1, h1, m1) = (y2, j2, h2, m2)).
  { intros E. pose proof Hvalid1 as V1. pose proof Hvalid2 as V2.
    apply valid_ordinal_spec in V1, V2.
    assert (days_in_year y1 <= 366) by (unfold days_in_year; destruct (is_leap y1); lia).
    assert (days_in_year y2 <= 366) by (unfold days_in_year; destruct (is_leap y2); lia).
    unfold ordinal_key in E.
    assert (y1 = y2) by lia. subst y2.
    assert (j1 = j2) by lia. subst j2.
    assert (h1 = h2) by lia. subst h2.
    assert (m1 = m2) by lia. subst m2. reflexivity. }
  split; split.
  - exact Up.
  - intros Hlt.
    destruct (Z.lt_trichotomy (ordinal_key y1 j1 h1 m1) (ordinal_key y2 j2 h2 m2))
      as [H|[H|H]]; [exact H| |].
    + apply Hsame in H. injection H as -> -> -> ->. lia.
    + apply Down in H. lia.
  - intros E.
    destruct (Z.lt_trichotomy (ordinal_key y1 j1 h1 m1) (ordinal_key y2 j2 h2 m2))
      as [H|[H|H]]; [|apply Hsame, H|].
    + apply Up in H. rewrite E in H. lia.
    + apply Down in H. rewrite E in H. lia.
  - intros [= -> -> -> ->]. reflexivity.
Qed.

End ValidRows.

(** ** The module as a whole, the log, the click *)

Section WholeModule.

Variable float_str : spec_float -> string.
Variable series_mean : list num -> num.
Variable open_text : string -> Exception + list string.
Variable fwf_decode : list string -> list string -> Exception + list RawRow.

Local Abbreviation read_fwf' := (read_fwf open_text fwf_decode).
Local Abbreviation read_data' := (read_data float_str open_text fwf_decode).
Local Abbreviation script' := (script float_str open_text fwf_decode).
Local Abbreviation module_body' := (module_body float_str series_mean open_text fwf_decode).
Local Abbreviation assign := (assign_DateTime float_str).

Lemma parse_digits_of_str_int (n : Z) : 0 <= n -> parse_digits (str_int n) = Some n.
Proof.
  intros H. rewrite parse_digits_alt. unfold str_int.
  destruct n as [|p|p]; [reflexivity| |lia]. simpl.
  rewrite NilZero.usu by apply DecimalPos.Unsigned.to_uint_nonnil.
  simpl. unfold Z.of_uint. rewrite DecimalPos.Unsigned.of_to. reflexivity.
Qed.

(** X11.  What [read_data] prints once the file is decoded.  With at
    least one row: after the output that was there, the banner, the
    first rows (five at most) and the number of records, which reads back
    as the length of the frame returned.  With no row: the banner, an
    empty head, and then the line of an error, the frame returned being
    the empty one. *)
Theorem read_data_log (lst_file : string) (rows : list RawRow) (out : list output)
    (Hread : read_fwf' lst_file column_names = inr rows) :
  (rows <> [] ->
   exists (storm_data : DataFrame) (count : string),
     read_data' lst_file out =
       (inr storm_data,
        (out ++ [Line "Data read successfully. First few rows:";
                 Head (firstn 5 rows);
                 Line ("Number of records: " ++ count)])%list) /\
     storm_data = map assign rows /\
     parse_digits count = Some (Z.of_nat (List.length storm_data)) /\
     List.length (firstn 5 rows) = Nat.min 5 (List.length storm_data) /\
     (forall i : nat, (i < 5)%nat -> nth_error (firstn 5 rows) i = nth_error rows i)) /\
  (rows = [] ->
   exists e : Exception,
     read_data' lst_file out =
       (inr DataFrame_empty,
        (out ++ [Line "Data read successfully. First few rows:";
                 Head [];
                 Line ("Error reading the LST file: " ++ exc_message e)])%list)).
Proof.
  split.
  - intros Hne.
    exists (map assign rows), (str_int (Z.of_nat (List.length (map assign rows)))).
    split; [|split; [|split; [|split]]].
    + rewrite (read_data_decoded float_str open_text fwf_decode lst_file rows out Hread Hne).
      rewrite <- !app_assoc. reflexivity.
    + reflexivity.
    + apply parse_digits_of_str_int. lia.
    + rewrite length_firstn, length_map. reflexivity.
    + intros i Hi. rewrite nth_error_firstn.
      destruct (Nat.ltb_spec i 5) as [_|Hge]; [reflexivity|lia].
  - intros ->. exists assemble_error.
    rewrite (read_data_no_rows float_str open_text fwf_decode lst_file out Hread).
    rewrite <- !app_assoc. reflexivity.
Qed.

(** X12.  The module builds a layout exactly from a file that decodes into at
    least one row.  An exception of the reader, or no row, ends it without
    a layout and without an exception; with rows, the result is that of
    [app_layout] over the rows with their DateTime, whose exception (the
    one [int] raises on the bounds of the slider) is not caught, and the
    message of the empty frame is not printed. *)
Theorem module_body_outcomes (out : list output) :
  (forall e : Exception,
     read_fwf' lst_file_path column_names = inl e ->
     fst (module_body' out) = inr None) /\
  (read_fwf' lst_file_path column_names = inr [] ->
   fst (module_body' out) = inr None) /\
  (forall rows : list RawRow,
     read_fwf' lst_file_path column_names = inr rows -> rows <> [] ->
     fst (module_body' out) =
       match app_layout float_str series_mean (map assign rows) with
       | inr app => inr (Some app)
       | inl e => inl e
       end /\
     snd (module_body' out) = snd (read_data' lst_file_path out)) /\
  (forall rows : list RawRow,
     read_fwf' lst_file_path column_names = inr rows -> rows <> [] ->
     (forall r, In r rows -> is_nan (Field_Magnitude_Avg r) = true) ->
     fst (module_body' out) =
       inl (mkException "ValueError" "cannot convert float NaN to integer")).
Proof.
  assert (Hrows : forall rows : list RawRow,
     read_fwf' lst_file_path column_names = inr rows -> rows <> [] ->
     fst (module_body' out) =
       match app_layout float_str series_mean (map assign rows) with
       | inr app => inr (Some app)
       | inl e => inl e
       end /\
     snd (module_body' out) = snd (read_data' lst_file_path out)).
  { intros rows H Hne.
    pose proof (read_data_decoded float_str open_text fwf_decode _ rows out H Hne) as Hr.
    assert (Hempty : empty (map assign rows) = false)
      by (destruct rows; [contradiction|reflexivity]).
    pose proof (script_of_read_data float_str open_text fwf_decode _ _ _ Hr) as Hs.
    rewrite Hempty in Hs.
    unfold module_body, bind. rewrite Hs, Hr. unfold call, ret.
    destruct (app_layout _ _ _); split; reflexivity. }
  split; [|split; [|split]].
  - intros e H.
    pose proof (read_data_raised float_str open_text fwf_decode _ e out H) as Hr.
    unfold module_body, bind.
    rewrite (script_of_read_data float_str open_text fwf_decode _ _ _ Hr). reflexivity.
  - intros H.
    pose proof (read_data_no_rows float_str open_text fwf_decode _ out H) as Hr.
    unfold module_body, bind.
    rewrite (script_of_read_data float_str open_text fwf_decode _ _ _ Hr). reflexivity.
  - exact Hrows.
  - intros rows H Hne Hnan. rewrite (proj1 (Hrows rows H Hne)).
    assert (E : app_layout float_str series_mean (map assign rows) =
                inl (mkException "ValueError" "cannot convert float NaN to integer")).
    { unfold app_layout.
      assert (Hall : forall v, In v (map (fun r : Row => Field_Magnitude_Avg r)
                                         (map assign rows)) -> is_nan v = true).
      { intros v Hv. apply in_map_iff in Hv. destruct Hv as (r & <- & Hr).
        apply in_map_iff in Hr. destruct Hr as (r0 & <- & Hr0). simpl. apply Hnan, Hr0. }
      destruct (series_min_in (map (fun r : Row => Field_Magnitude_Avg r)
                                   (map assign rows))) as [[Hm _]|[Hm Hin]].
      - destruct (series_min _) as [n|[s|s| |s m e]]; try discriminate Hm. reflexivity.
      - rewrite (Hall _ Hin) in Hm. discriminate Hm. }
    rewrite E. reflexivity.
Qed.

Lemma getitem_some {V : Type} (d : pydict V) (key : string) (v : V) :
  dict_get key d = Some v -> getitem d key = inr v.
Proof. intros H. unfold getitem. rewrite H. reflexivity. Qed.

Lemma getitem_none {V : Type} (d : pydict V) (key : string) :
  dict_get key d = None ->
  getitem d key = inl (mkException "KeyError" ("'" ++ key ++ "'")).
Proof. intros H. unfold getitem. rewrite H. reflexivity. Qed.

(** X13.  The click echo by cases, over the dicts of the event.  The
    placeholder is returned exactly for [None] and for the empty dict.
    For any other dict: KeyError when it has no key ['points'],
    IndexError when its list of points is empty, KeyError for the first
    of the keys text, x, y, z that the first point lacks, and else the
    text made of the four values of the first point (the other points
    are not read).  On an event that has all its keys this is the echo
    over the typed event. *)
Theorem display_click_data_cases :
  (forall clickdata,
     display_click_data_json float_str clickdata =
       inr "Click on a point to see details."
     <-> clickdata = None \/ clickdata = Some []) /\
  (forall cd, cd <> [] -> dict_get "points" cd = None ->
     display_click_data_json float_str (Some cd) =
       inl (mkException "KeyError" "'points'")) /\
  (forall cd, cd <> [] -> dict_get "points" cd = Some [] ->
     display_click_data_json float_str (Some cd) =
       inl (mkException "IndexError" "list index out of range")) /\
  (forall cd pt others key,
     cd <> [] -> dict_get "points" cd = Some (pt :: others) ->
     find (fun k => match dict_get k pt with None => true | Some _ => false end)
          ["text"; "x"; "y"; "z"] = Some key ->
     display_click_data_json float_str (Some cd) =
       inl (mkException "KeyError" ("'" ++ key ++ "'"))) /\
  (forall cd pt others label px py pz,
     cd <> [] -> dict_get "points" cd = Some (pt :: others) ->
     dict_get "text" pt = Some label -> dict_get "x" pt = Some px ->
     dict_get "y" pt = Some py -> dict_get "z" pt = Some pz ->
     display_click_data_json float_str (Some cd) =
       inr ("Clicked Point: DateTime: " ++ py_str float_str label ++
            ", BX: " ++ py_str float_str px ++
            ", BY: " ++ py_str float_str py ++
            ", BZ: " ++ py_str float_str pz)) /\
  (forall cd : click,
     display_click_data_json float_str (Some (click_json cd)) =
     display_click_data float_str (Some cd)) /\
  display_click_data_json float_str None = display_click_data float_str None.
Proof.
  split; [|split; [|split; [|split; [|split; [|split]]]]].
  - intros clickdata. split.
    + destruct clickdata as [[|[k v] cd]|]; [intros _; right; reflexivity| |intros _; left; reflexivity].
      unfold display_click_data_json.
      destruct (getitem _ "points") as [e|[|pt others]]; try discriminate.
      destruct (getitem pt "text"); [discriminate|].
      destruct (getitem pt "x"); [discriminate|].
      destruct (getitem pt "y"); [discriminate|].
      destruct (getitem pt "z"); [discriminate|].
      intros H. injection H as H. discriminate H.
    + intros [->| ->]; reflexivity.
  - intros cd Hne Hp. destruct cd as [|kv cd]; [contradiction|].
    unfold display_click_data_json. rewrite (getitem_none _ _ Hp). reflexivity.
  - intros cd Hne Hp. destruct cd as [|kv cd]; [contradiction|].
    unfold display_click_data_json. rewrite (getitem_some _ _ _ Hp). reflexivity.
  - intros cd pt others key Hne Hp Hfind. destruct cd as [|kv cd]; [contradiction|].
    unfold display_click_data_json. rewrite (getitem_some _ _ _ Hp).
    unfold getitem. simpl in Hfind.
    destruct (dict_get "text" pt); [|injection Hfind as <-; reflexivity].
    destruct (dict_get "x" pt); [|injection Hfind as <-; reflexivity].
    destruct (dict_get "y" pt); [|injection Hfind as <-; reflexivity].
    destruct (dict_get "z" pt); [discriminate Hfind|injection Hfind as <-; reflexivity].
  - intros cd pt others label px py pz Hne Hp Ht Hx Hy Hz.
    destruct cd as [|kv cd]; [contradiction|].
    unfold display_click_data_json.
    rewrite (getitem_some _ _ _ Hp), (getitem_some _ _ _ Ht), (getitem_some _ _ _ Hx),
      (getitem_some _ _ _ Hy), (getitem_some _ _ _ Hz).
    reflexivity.
  - intros [[|pt others]]; reflexivity.
  - reflexivity.
Qed.

End WholeModule.

(** ** The layout and the valid rows at the sample inputs *)

Lemma Sample_magnitudes_one_dtype :
  one_dtype (map (fun r : Row => Field_Magnitude_Avg r) Sample.storm_data).
Proof. right. intros v [<-|[<-|[<-|[<-|[]]]]]; reflexivity. Qed.

Lemma year_dropdown_options_witness :
  exists app : Layout,
    app_layout Sample.float_str Sample.series_mean Sample.storm_data = inr app /\
    map (fun r : Row => Year r) Sample.storm_data =
      [VInt 2024; VInt 2024; VInt 2024; VInt 2024] /\
    map option_value (options (year_dropdown app)) = [VInt 2024].
Proof.
  eexists. split; [reflexivity|]. split; [reflexivity|].
  etransitivity;
    [apply (proj1 (year_dropdown_options Sample.float_str Sample.series_mean
                     Sample.storm_data _ eq_refl))
    |reflexivity].
  left. intros v [<-|[<-|[<-|[<-|[]]]]]; reflexivity.
Defined.

Lemma year_dropdown_default_witness :
  exists app : Layout,
    app_layout Sample.float_str Sample.series_mean Sample.storm_data = inr app /\
    exists o, In o (options (year_dropdown app)) /\
              num_same (dropdown_value (year_dropdown app)) (option_value o) = true.
Proof.
  eexists. split; [reflexivity|].
  exact (year_dropdown_default Sample.float_str Sample.series_mean
           Sample.storm_data _ eq_refl).
Defined.

Lemma slider_marks_witness :
  exists app : Layout,
    app_layout Sample.float_str Sample.series_mean Sample.storm_data = inr app /\
    exists lo hi : Z,
      py_int (slider_min (magnitude_slider app)) = inr lo /\
      py_int (slider_max (magnitude_slider app)) = inr hi /\
      (forall (k : Z) (s : string),
         In (k, s) (marks (magnitude_slider app)) <->
         lo <= k <= hi /\ (k - lo) mod 5 = 0 /\ s = str_int k) /\
      StronglySorted Z.lt (map fst (marks (magnitude_slider app))).
Proof.
  eexists. split; [reflexivity|].
  exact (slider_marks Sample.float_str Sample.series_mean Sample.storm_data _ eq_refl).
Defined.

Lemma slider_range_covers_witness :
  exists app : Layout,
    app_layout Sample.float_str Sample.series_mean Sample.storm_data = inr app /\
    one_dtype (map (fun r : Row => Field_Magnitude_Avg r) Sample.storm_data) /\
    num_le (slider_min (magnitude_slider app)) (VFloat Sample.f12_5) = true /\
    num_le (VFloat Sample.f12_5) (slider_max (magnitude_slider app)) = true.
Proof.
  eexists. split; [reflexivity|]. split; [exact Sample_magnitudes_one_dtype|].
  apply (slider_range_covers Sample.float_str Sample.series_mean Sample.storm_data _
           eq_refl Sample_magnitudes_one_dtype
           (assign_DateTime Sample.float_str Sample.row_strong)).
  - right; right; left; reflexivity.
  - reflexivity.
Defined.

Lemma slider_at_max_shows_year_witness :
  exists app : Layout,
    app_layout Sample.float_str Sample.series_mean Sample.storm_data = inr app /\
    one_dtype (map (fun r : Row => Field_Magnitude_Avg r) Sample.storm_data) /\
    filtered_data Sample.storm_data (VInt 2024) (slider_max (magnitude_slider app)) =
      filter (fun r : Row => num_eq (Year r) (VInt 2024) &&
                             negb (is_nan (Field_Magnitude_Avg r))) Sample.storm_data.
Proof.
  eexists. split; [reflexivity|]. split; [exact Sample_magnitudes_one_dtype|].
  exact (slider_at_max_shows_year Sample.float_str Sample.series_mean Sample.storm_data _
           (VInt 2024) eq_refl Sample_magnitudes_one_dtype).
Defined.

Lemma every_measured_record_reachable_witness :
  exists app : Layout,
    app_layout Sample.float_str Sample.series_mean Sample.storm_data = inr app /\
    one_dtype (map (fun r : Row => Field_Magnitude_Avg r) Sample.storm_data) /\
    exists o, In o (options (year_dropdown app)) /\
              In (assign_DateTime Sample.float_str Sample.row_strong)
                 (filtered_data Sample.storm_data (option_value o)
                                (slider_max (magnitude_slider app))).
Proof.
  eexists. split; [reflexivity|]. split; [exact Sample_magnitudes_one_dtype|].
  apply (every_measured_record_reachable Sample.float_str Sample.series_mean
           Sample.storm_data _ eq_refl Sample_magnitudes_one_dtype
           (assign_DateTime Sample.float_str Sample.row_strong)).
  - right; right; left; reflexivity.
  - reflexivity.
  - reflexivity.
Defined.

Lemma filtered_data_monotone_witness :
  (forall r : Row, In r Sample.storm_data ->
     is_int (Field_Magnitude_Avg r) = is_int (VFloat Sample.f4_0)) /\
  is_int (VFloat Sample.f4_0) = is_int (VFloat Sample.f12_5) /\
  num_le (VFloat Sample.f4_0) (VFloat Sample.f12_5) = true /\
  subsequence (filtered_data Sample.storm_data (VInt 2024) (VFloat Sample.f4_0))
              (filtered_data Sample.storm_data (VInt 2024) (VFloat Sample.f12_5)).
Proof.
  assert (H : forall r : Row, In r Sample.storm_data ->
                is_int (Field_Magnitude_Avg r) = is_int (VFloat Sample.f4_0)).
  { intros r [<-|[<-|[<-|[<-|[]]]]]; reflexivity. }
  split; [exact H|]. split; [reflexivity|]. split; [reflexivity|].
  exact (filtered_data_monotone Sample.storm_data (VInt 2024)
           (VFloat Sample.f4_0) (VFloat Sample.f12_5) H eq_refl eq_refl).
Defined.

Lemma valid_row_round_trip_witness :
  valid_ordinal 2024 132 3 30 = true /\
  in_ns_bounds (timestamp_of 2024 132 3 30) = true /\
  exists t : datetime,
    DateTime (assign_DateTime Sample.float_str Sample.row_strong) = Some t /\
    year t = 2024 /\ month t = 5 /\ day t = 11 /\ hour t = 3 /\ minute t = 30.
Proof.
  split; [reflexivity|]. split; [reflexivity|].
  destruct (valid_row_round_trip Sample.float_str Sample.row_strong 2024 132 3 30
              eq_refl eq_refl eq_refl eq_refl eq_refl eq_refl)
    as (t & Ht & Hy & Hh & Hm & _ & _ & _ & Huniq).
  exists t. split; [exact Ht|].
  destruct (Huniq 5 11) as [E1 E2]; [lia|vm_compute; split; discriminate|reflexivity|].
  repeat split; auto.
Defined.

Lemma valid_rows_chronological_witness :
  valid_ordinal 2024 131 12 0 = true /\ valid_ordinal 2024 132 3 30 = true /\
  in_ns_bounds (timestamp_of 2024 131 12 0) = true /\
  in_ns_bounds (timestamp_of 2024 132 3 30) = true /\
  exists t1 t2 : datetime,
    DateTime (assign_DateTime Sample.float_str Sample.row_measured) = Some t1 /\
    DateTime (assign_DateTime Sample.float_str Sample.row_strong) = Some t2 /\
    (ordinal_key 2024 131 12 0 < ordinal_key 2024 132 3 30 <->
     minute_key t1 < minute_key t2) /\
    (t1 = t2 <-> (2024, 131, 12, 0) = (2024, 132, 3, 30)).
Proof.
  split; [reflexivity|]. split; [reflexivity|].
  split; [reflexivity|]. split; [reflexivity|].
  refine (valid_rows_chronological Sample.float_str Sample.row_measured Sample.row_strong
            2024 131 12 0 2024 132 3 30 _ _ eq_refl eq_refl eq_refl eq_refl);
    repeat split.
Defined.

Lemma read_data_log_witness :
  exists rows : list RawRow,
    read_fwf Sample.open_text Sample.fwf_decode "omni_web_data1.lst" column_names =
      inr rows /\
    rows <> [] /\
    exists (storm_data : DataFrame) (count : string),
      read_data Sample.float_str Sample.open_text Sample.fwf_decode
                "omni_web_data1.lst" [] =
        (inr storm_data,
         [Line "Data read successfully. First few rows:";
          Head (firstn 5 rows);
          Line ("Number of records: " ++ count)]) /\
      parse_digits count = Some (Z.of_nat (List.length storm_data)).
Proof.
  exists (FixedWidth.infer_dtypes
            (map (FixedWidth.row_of_fields Sample.number_of_token column_names)
                 (FixedWidth.table [Sample.line_1; Sample.line_2]))).
  assert (Hread : read_fwf Sample.open_text Sample.fwf_decode "omni_web_data1.lst"
                           column_names =
                  inr (FixedWidth.infer_dtypes
                         (map (FixedWidth.row_of_fields Sample.number_of_token column_names)
                              (FixedWidth.table [Sample.line_1; Sample.line_2]))))
    by reflexivity.
  assert (Hne : FixedWidth.infer_dtypes
                  (map (FixedWidth.row_of_fields Sample.number_of_token column_names)
                       (FixedWidth.table [Sample.line_1; Sample.line_2])) <> [])
    by (vm_compute; discriminate).
  split; [exact Hread|]. split; [exact Hne|].
  destruct (proj1 (read_data_log Sample.float_str Sample.open_text Sample.fwf_decode
                     "omni_web_data1.lst" _ [] Hread) Hne)
    as (storm_data & count & Hrun & _ & Hcount & _).
  exists storm_data, count. split; [exact Hrun|exact Hcount].
Defined.

Lemma module_body_outcomes_witness :
  read_fwf Sample.open_text Sample.decode_unmeasured lst_file_path column_names =
    inr [Sample.row_missing_magnitude] /\
  fst (module_body Sample.float_str Sample.series_mean
                   Sample.open_text Sample.decode_unmeasured []) =
    inl (mkException "ValueError" "cannot convert float NaN to integer").
Proof.
  split; [reflexivity|].
  pose proof (module_body_outcomes Sample.float_str Sample.series_mean
                Sample.open_text Sample.decode_unmeasured [])
    as (_ & _ & _ & Hnan).
  apply (Hnan [Sample.row_missing_magnitude] eq_refl).
  - discriminate.
  - intros r [<-|[]]. reflexivity.
Defined.

Lemma app_layout_errors_witness :
  app_layout Sample.float_str Sample.series_mean Sample.storm_data_unmeasured =
    inl (mkException "ValueError" "cannot convert float NaN to integer").
Proof.
  apply (proj1 (app_layout_errors Sample.float_str Sample.series_mean
                  Sample.storm_data_unmeasured)).
  intros r [<-|[]]. reflexivity.
Defined.
